(** * The Kubernetes metadata database of pkg/internal/transform/kube/db.go

    A shallow embedding of [Database] and its methods, and the properties
    of its indexes.

    The methods are embedded in a small state monad over a [World]: the
    receiver [*Database], the state of the informer, the pod, service
    and node objects the informer owns (the indexes hold pointers to
    them), and the log of the calls made to the collaborators.

    The six mutexes are not modelled: every method runs alone, from its
    first statement to its return. *)

From stdpp Require Import base option strings functions gmap fin_maps list.

Local Open Scope string_scope.
Local Open Scope list_scope.

(** ** Go data *)

(** [uint32] keys (PIDs, PID namespaces). No arithmetic is done on them. *)
Abbreviation uint32 := N (only parsing).

(** A non-nil Go pointer. A [*kube.PodInfo] that may be nil is an
    [option ptr], [None] being nil. The values kept in the indexes are
    plain [ptr]: db.go reads a field of every object before it stores its
    pointer in an IP index, and stores in the pod cache only what the
    informer found. *)
Abbreviation ptr := positive (only parsing).

(** The [error] of Go, by its message. *)
Abbreviation error := string (only parsing).

Module container.
(** Modelled from the spec: container.Info, declared in
    pkg/internal/helpers/container, is [{ContainerID: string,
    PIDNamespace: uint32}]. *)
Record Info := mkInfo { ContainerID : string; PIDNamespace : uint32 }.
End container.

Module kube.
(** Modelled from the spec: the types of pkg/internal/kube. The owner
    metadata of a pod (deployment, replicaset) is left as a parameter. *)
Record IPInfo := mkIPInfo { IPs : list string }.

Module PodInfo.
Record t (O : Type) := mk
  { Name : string; Namespace : string; IPInfo : kube.IPInfo; Owner : O }.
Arguments mk {O}.
Arguments Name {O}.
Arguments Namespace {O}.
Arguments IPInfo {O}.
Arguments Owner {O}.
Definition setOwner {O} (o : O) (p : t O) : t O :=
  mk (Name p) (Namespace p) (IPInfo p) o.
End PodInfo.

Module ServiceInfo.
Record t := mk { Name : string; Namespace : string; IPInfo : kube.IPInfo }.
End ServiceInfo.

Module NodeInfo.
Record t := mk { Name : string; Namespace : string; IPInfo : kube.IPInfo }.
End NodeInfo.
End kube.

Import container kube.

(** ** The database *)

(** [type Database struct]: the six maps. The field [informer] points to
    the informer, whose state is kept in the [World]. *)
Record Database := mkDatabase {
  containerIDs : gmap string container.Info;
  namespaces : gmap N container.Info;
  fetchedPodsCache : gmap N positive;
  podsByIP : gmap string positive;
  svcByIP : gmap string positive;
  nodeByIP : gmap string positive
}.

Definition set_containerIDs (f : gmap string container.Info → gmap string container.Info)
    (d : Database) : Database :=
  mkDatabase (f (containerIDs d)) (namespaces d) (fetchedPodsCache d)
             (podsByIP d) (svcByIP d) (nodeByIP d).

Definition set_namespaces (f : gmap N container.Info → gmap N container.Info)
    (d : Database) : Database :=
  mkDatabase (containerIDs d) (f (namespaces d)) (fetchedPodsCache d)
             (podsByIP d) (svcByIP d) (nodeByIP d).

Definition set_fetchedPodsCache (f : gmap N positive → gmap N positive)
    (d : Database) : Database :=
  mkDatabase (containerIDs d) (namespaces d) (f (fetchedPodsCache d))
             (podsByIP d) (svcByIP d) (nodeByIP d).

Definition set_podsByIP (f : gmap string positive → gmap string positive)
    (d : Database) : Database :=
  mkDatabase (containerIDs d) (namespaces d) (fetchedPodsCache d)
             (f (podsByIP d)) (svcByIP d) (nodeByIP d).

Definition set_svcByIP (f : gmap string positive → gmap string positive)
    (d : Database) : Database :=
  mkDatabase (containerIDs d) (namespaces d) (fetchedPodsCache d)
             (podsByIP d) (f (svcByIP d)) (nodeByIP d).

Definition set_nodeByIP (f : gmap string positive → gmap string positive)
    (d : Database) : Database :=
  mkDatabase (containerIDs d) (namespaces d) (fetchedPodsCache d)
             (podsByIP d) (svcByIP d) (f (nodeByIP d)).

(** [CreateDatabase]: the six maps are empty. *)
Definition CreateDatabase : Database := mkDatabase ∅ ∅ ∅ ∅ ∅ ∅.

(** A call of db.go to one of its collaborators. *)
Inductive Call :=
| CallInfoForPID (pid : uint32)
| CallGetContainerPod (containerID : string)
| CallFetchPodOwnerInfo (pod : ptr).

(** ** The world and its monad *)

Record World (O Metadata : Type) := mkWorld {
  db : Database;
  informer : Metadata;
  podObjs : positive → PodInfo.t O;
  svcObjs : positive → ServiceInfo.t;
  nodeObjs : positive → NodeInfo.t;
  calls : list Call
}.
Arguments mkWorld {O Metadata}.
Arguments db {O Metadata}.
Arguments informer {O Metadata}.
Arguments podObjs {O Metadata}.
Arguments svcObjs {O Metadata}.
Arguments nodeObjs {O Metadata}.
Arguments calls {O Metadata}.

Definition with_db {O Md} (f : Database → Database) (w : World O Md) : World O Md :=
  mkWorld (f (db w)) (informer w) (podObjs w) (svcObjs w) (nodeObjs w) (calls w).

Definition M (O Md A : Type) : Type := World O Md → A * World O Md.

Definition ret {O Md A} (a : A) : M O Md A := λ w, (a, w).

Definition bind {O Md A B} (m : M O Md A) (k : A → M O Md B) : M O Md B :=
  λ w, let (a, w') := m w in k a w'.

Declare Scope go_scope.
Delimit Scope go_scope with go.
Notation "'let*' x ':=' m 'in' k" := (bind m (λ x, k))
  (at level 10, x name, m at level 100, k at level 200, only parsing) : go_scope.
Notation "m '>>' k" := (bind m (λ _, k))
  (at level 100, k at level 200, right associativity, only parsing) : go_scope.
Local Open Scope go_scope.

(** The value a method returns, and the world it leaves. *)
Definition result {O Md A} (m : M O Md A) (w : World O Md) : A := fst (m w).
Definition exec {O Md A} (m : M O Md A) (w : World O Md) : World O Md := snd (m w).

(** A read of the receiver, [id.field], and an update of one of its maps. *)
Definition load {O Md A} (f : Database → A) : M O Md A := λ w, (f (db w), w).
Definition update {O Md} (f : Database → Database) : M O Md unit :=
  λ w, (tt, with_db f w).

(** Reads of the fields of the objects the pointers point to. *)
Definition pod_field {O Md A} (pod : ptr) (f : PodInfo.t O → A) : M O Md A :=
  λ w, (f (podObjs w pod), w).
Definition svc_field {O Md A} (svc : ptr) (f : ServiceInfo.t → A) : M O Md A :=
  λ w, (f (svcObjs w svc), w).
Definition node_field {O Md A} (node : ptr) (f : NodeInfo.t → A) : M O Md A :=
  λ w, (f (nodeObjs w node), w).

(** [for _, x := range l { body }] *)
Fixpoint for_range {O Md A} (l : list A) (body : A → M O Md unit) : M O Md unit :=
  match l with
  | [] => ret tt
  | x :: l' => body x >> for_range l' body
  end.

Section Database.
(** Modelled from the spec: the collaborators of the database, which are
    not in db.go. [ServiceName] is the method of kube.PodInfo that
    derives the service name of a pod. [GetContainerPod] and
    [FetchPodOwnerInfo] are the two queries of the informer
    (kube.Metadata): the first finds the pod of a container, the second
    gives the owner fields that it writes into the pod in place.
    [InfoForPID] is the process inspector. *)
Context {O Md : Type}.
Variable ServiceName : PodInfo.t O → string.
Variable GetContainerPod : Md → string → option ptr.
Variable FetchPodOwnerInfo : Md → PodInfo.t O → O.
Variable InfoForPID : uint32 → container.Info + error.

Abbreviation M := (M O Md).

(** [container.InfoForPID(pid)] *)
Definition call_InfoForPID (pid : uint32) : M (container.Info + error) :=
  λ w, (InfoForPID pid,
        mkWorld (db w) (informer w) (podObjs w) (svcObjs w) (nodeObjs w)
                (calls w ++ [CallInfoForPID pid])).

(** [id.informer.GetContainerPod(containerID)]; [Some pod] is [(pod, true)]. *)
Definition call_GetContainerPod (containerID : string) : M (option ptr) :=
  λ w, (GetContainerPod (informer w) containerID,
        mkWorld (db w) (informer w) (podObjs w) (svcObjs w) (nodeObjs w)
                (calls w ++ [CallGetContainerPod containerID])).

(** [id.informer.FetchPodOwnerInfo(pod)]: the pod object is changed in place. *)
Definition call_FetchPodOwnerInfo (pod : ptr) : M unit :=
  λ w, (tt,
        mkWorld (db w) (informer w)
                (<[pod := PodInfo.setOwner
                            (FetchPodOwnerInfo (informer w) (podObjs w pod))
                            (podObjs w pod)]> (podObjs w))
                (svcObjs w) (nodeObjs w)
                (calls w ++ [CallFetchPodOwnerInfo pod])).

(** The method [deletePodCache] of [Database]. *)
Definition deletePodCache (ns : uint32) : M unit :=
  update (set_fetchedPodsCache (delete ns)).

(** [func (id *Database) OnDeletion(containerID []string)] *)
Definition OnDeletion (containerID : list string) : M unit :=
  for_range containerID (λ cid,
    let* r := load (λ id, containerIDs id !! cid) in
    update (set_containerIDs (delete cid)) >>
    match r with
    | Some info =>
        deletePodCache (PIDNamespace info) >>
        update (set_namespaces (delete (PIDNamespace info)))
    | None => ret tt
    end).

(** The method [addProcess] of [Database]. *)
Definition addProcess (ifp : container.Info) : M unit :=
  deletePodCache (PIDNamespace ifp) >>
  update (set_namespaces (<[PIDNamespace ifp := ifp]>)) >>
  update (set_containerIDs (<[ContainerID ifp := ifp]>)).

(** The method [AddProcess] of [Database]. *)
Definition AddProcess (pid : uint32) : M unit :=
  let* r := call_InfoForPID pid in
  match r with
  | inr err => ret tt
  | inl ifp => addProcess ifp
  end.

(** The method [CleanProcessCaches] of [Database]. *)
Definition CleanProcessCaches (ns : uint32) : M unit :=
  deletePodCache ns.

(** The method [OwnerPodInfo] of [Database]. *)
Definition OwnerPodInfo (pidNamespace : uint32) : M (option ptr * bool) :=
  let refreshed (pod : ptr) : M (option ptr * bool) :=
    call_FetchPodOwnerInfo pod >> ret (Some pod, true) in
  let* r := load (λ id, fetchedPodsCache id !! pidNamespace) in
  match r with
  | Some pod => refreshed pod
  | None =>
      let* r := load (λ id, namespaces id !! pidNamespace) in
      match r with
      | None => ret (None, false)
      | Some info =>
          let* r := call_GetContainerPod (ContainerID info) in
          match r with
          | None => ret (None, false)
          | Some pod =>
              update (set_fetchedPodsCache (<[pidNamespace := pod]>)) >>
              refreshed pod
          end
      end
  end.

(** The method [UpdateNewPodsByIPIndex] of [Database]. *)
Definition UpdateNewPodsByIPIndex (pod : ptr) : M unit :=
  let* ips := pod_field pod (λ o, IPs (PodInfo.IPInfo o)) in
  if decide (0 < length ips) then
    for_range ips (λ ip, update (set_podsByIP (<[ip := pod]>)))
  else ret tt.

(** The method [UpdateDeletedPodsByIPIndex] of [Database]. *)
Definition UpdateDeletedPodsByIPIndex (pod : ptr) : M unit :=
  let* ips := pod_field pod (λ o, IPs (PodInfo.IPInfo o)) in
  if decide (0 < length ips) then
    for_range ips (λ ip, update (set_podsByIP (delete ip)))
  else ret tt.

(** The method [PodInfoForIP] of [Database]. *)
Definition PodInfoForIP (ip : string) : M (option ptr) :=
  load (λ id, podsByIP id !! ip).

(** The method [UpdateNewServicesByIPIndex] of [Database]. *)
Definition UpdateNewServicesByIPIndex (svc : ptr) : M unit :=
  let* ips := svc_field svc (λ o, IPs (ServiceInfo.IPInfo o)) in
  if decide (0 < length ips) then
    for_range ips (λ ip, update (set_svcByIP (<[ip := svc]>)))
  else ret tt.

(** The method [UpdateDeletedServicesByIPIndex] of [Database]. *)
Definition UpdateDeletedServicesByIPIndex (svc : ptr) : M unit :=
  let* ips := svc_field svc (λ o, IPs (ServiceInfo.IPInfo o)) in
  if decide (0 < length ips) then
    for_range ips (λ ip, update (set_svcByIP (delete ip)))
  else ret tt.

(** The method [ServiceInfoForIP] of [Database]. *)
Definition ServiceInfoForIP (ip : string) : M (option ptr) :=
  load (λ id, svcByIP id !! ip).

(** The method [UpdateNewNodesByIPIndex] of [Database]. *)
Definition UpdateNewNodesByIPIndex (svc : ptr) : M unit :=
  let* ips := node_field svc (λ o, IPs (NodeInfo.IPInfo o)) in
  if decide (0 < length ips) then
    for_range ips (λ ip, update (set_nodeByIP (<[ip := svc]>)))
  else ret tt.

(** The method [UpdateDeletedNodesByIPIndex] of [Database]. *)
Definition UpdateDeletedNodesByIPIndex (svc : ptr) : M unit :=
  let* ips := node_field svc (λ o, IPs (NodeInfo.IPInfo o)) in
  if decide (0 < length ips) then
    for_range ips (λ ip, update (set_nodeByIP (delete ip)))
  else ret tt.

(** The method [NodeInfoForIP] of [Database]. *)
Definition NodeInfoForIP (ip : string) : M (option ptr) :=
  load (λ id, nodeByIP id !! ip).

(** The method [HostNameForIP] of [Database]. *)
Definition HostNameForIP (ip : string) : M string :=
  let* r := load (λ id, svcByIP id !! ip) in
  match r with
  | Some svc => svc_field svc ServiceInfo.Name
  | None =>
      let* r := load (λ id, podsByIP id !! ip) in
      match r with
      | Some pod => pod_field pod PodInfo.Name
      | None =>
          let* r := load (λ id, nodeByIP id !! ip) in
          match r with
          | Some node => node_field node NodeInfo.Name
          | None => ret ""
          end
      end
  end.

(** The method [ServiceNameNamespaceForIP] of [Database]. *)
Definition ServiceNameNamespaceForIP (ip : string) : M (string * string) :=
  let* r := load (λ id, svcByIP id !! ip) in
  match r with
  | Some svc =>
      svc_field svc (λ o, (ServiceInfo.Name o, ServiceInfo.Namespace o))
  | None =>
      let* r := load (λ id, podsByIP id !! ip) in
      match r with
      | Some pod => pod_field pod (λ o, (ServiceName o, PodInfo.Namespace o))
      | None =>
          let* r := load (λ id, nodeByIP id !! ip) in
          match r with
          | Some node =>
              node_field node (λ o, (NodeInfo.Name o, NodeInfo.Namespace o))
          | None => ret ("", "")
          end
      end
  end.

End Database.

(** ** What one pass does to the maps *)

(** One iteration of the loop of [OnDeletion], on the maps. *)
Definition deleteOne (d : Database) (cid : string) : Database :=
  match containerIDs d !! cid with
  | Some info =>
      set_namespaces (delete (PIDNamespace info))
        (set_fetchedPodsCache (delete (PIDNamespace info))
           (set_containerIDs (delete cid) d))
  | None => set_containerIDs (delete cid) d
  end.

(** Every entry of the namespace index is kept under the PID namespace of
    its container: [addProcess] is the only writer, and it writes [ifp]
    under [ifp.PIDNamespace]. *)
Definition namespaces_keyed (d : Database) : Prop :=
  map_Forall (λ ns info, PIDNamespace info = ns) (namespaces d).

#[global] Instance namespaces_keyed_dec d : Decision (namespaces_keyed d).
Proof. unfold namespaces_keyed. apply _. Defined.

(** ** A small cluster

    One pod, one service and one node; the process 100 runs in the
    container c1 and the process 101 in the container c2, both in the PID
    namespace 7; the process 102 runs in c1 too, in the PID namespace 8;
    the informer knows the pod of c1. *)
Module Scenario.
Definition Owner : Type := option string.
Definition Metadata : Type := gmap string positive.

Definition ServiceName (p : PodInfo.t Owner) : string :=
  default (PodInfo.Name p) (PodInfo.Owner p).
Definition GetContainerPod (md : Metadata) (containerID : string) : option ptr :=
  md !! containerID.
Definition FetchPodOwnerInfo (md : Metadata) (p : PodInfo.t Owner) : Owner :=
  Some "web".
Definition InfoForPID (pid : uint32) : container.Info + error :=
  if decide (pid = 100%N) then inl (container.mkInfo "c1" 7)
  else if decide (pid = 101%N) then inl (container.mkInfo "c2" 7)
  else if decide (pid = 102%N) then inl (container.mkInfo "c1" 8)
  else inr "no such process".

Definition web1 : PodInfo.t Owner :=
  PodInfo.mk "web-1" "prod" (mkIPInfo ["10.0.0.5"; "10.0.0.6"]) None.
Definition svc_a : ServiceInfo.t :=
  ServiceInfo.mk "svc-a" "prod" (mkIPInfo ["10.0.0.9"; "10.0.0.5"]).
Definition node1 : NodeInfo.t :=
  NodeInfo.mk "node-1" "" (mkIPInfo ["10.0.0.1"]).

(** The world of a database that was just created. *)
Definition w0 : World Owner Metadata :=
  mkWorld CreateDatabase {["c1" := 1%positive]}
          (λ _, web1) (λ _, svc_a) (λ _, node1) [].

(** The pod, the service and the node have been announced. *)
Definition w_ips : World Owner Metadata :=
  exec (UpdateNewPodsByIPIndex 1%positive >>
        UpdateNewServicesByIPIndex 2%positive >>
        UpdateNewNodesByIPIndex 3%positive) w0.

(** The process 100 has been added. *)
Definition w_c1 : World Owner Metadata := exec (AddProcess InfoForPID 100%N) w0.

(** The pod that owns the namespace 7 has been looked up, and cached. *)
Definition w_cached : World Owner Metadata :=
  exec (OwnerPodInfo GetContainerPod FetchPodOwnerInfo 7%N) w_c1.
End Scenario.

(** The indexes of the small cluster, with objects that have no IPs. *)
Definition w_headless : World Scenario.Owner Scenario.Metadata :=
  mkWorld (db Scenario.w_ips) ∅
          (λ _, PodInfo.mk "pending" "prod" (mkIPInfo []) None)
          (λ _, ServiceInfo.mk "headless" "prod" (mkIPInfo []))
          (λ _, NodeInfo.mk "node-2" "" (mkIPInfo [])) [].

(** ** The event handlers of [StartDatabase]

    [StartDatabase] registers three sets of closures with the informer.
    Each closure casts its arguments to the pointer type of its index and
    calls the updates of that index; an update is the deletion of the old
    object followed by the addition of the new one. *)

Definition PodEventHandler_AddFunc {O Md} (obj : ptr) : M O Md unit :=
  UpdateNewPodsByIPIndex obj.
Definition PodEventHandler_UpdateFunc {O Md} (oldObj newObj : ptr) : M O Md unit :=
  UpdateDeletedPodsByIPIndex oldObj >> UpdateNewPodsByIPIndex newObj.
Definition PodEventHandler_DeleteFunc {O Md} (obj : ptr) : M O Md unit :=
  UpdateDeletedPodsByIPIndex obj.

Definition ServiceEventHandler_AddFunc {O Md} (obj : ptr) : M O Md unit :=
  UpdateNewServicesByIPIndex obj.
Definition ServiceEventHandler_UpdateFunc {O Md} (oldObj newObj : ptr) : M O Md unit :=
  UpdateDeletedServicesByIPIndex oldObj >> UpdateNewServicesByIPIndex newObj.
Definition ServiceEventHandler_DeleteFunc {O Md} (obj : ptr) : M O Md unit :=
  UpdateDeletedServicesByIPIndex obj.

Definition NodeEventHandler_AddFunc {O Md} (obj : ptr) : M O Md unit :=
  UpdateNewNodesByIPIndex obj.
Definition NodeEventHandler_UpdateFunc {O Md} (oldObj newObj : ptr) : M O Md unit :=
  UpdateDeletedNodesByIPIndex oldObj >> UpdateNewNodesByIPIndex newObj.
Definition NodeEventHandler_DeleteFunc {O Md} (obj : ptr) : M O Md unit :=
  UpdateDeletedNodesByIPIndex obj.

(** ** What the updates of an IP index do to its map *)

(** The loop of an [UpdateNew...ByIPIndex], on the map of the index. *)
Definition insert_all (ips : list string) (obj : ptr)
    (m : gmap string positive) : gmap string positive :=
  foldl (λ m ip, <[ip := obj]> m) m ips.

(** The loop of an [UpdateDeleted...ByIPIndex], on the map of the index. *)
Definition delete_all (ips : list string)
    (m : gmap string positive) : gmap string positive :=
  foldl (λ m ip, delete ip m) m ips.

(** ** The states the database goes through *)

(** Every entry of the container-ID index is kept under the ID of its
    container. *)
Definition containerIDs_keyed (d : Database) : Prop :=
  map_Forall (λ cid info, ContainerID info = cid) (containerIDs d).

(** A pod is cached only for a PID namespace that the namespace index
    knows. *)
Definition cache_within_namespaces (d : Database) : Prop :=
  map_Forall (λ ns _, is_Some (namespaces d !! ns)) (fetchedPodsCache d).

(** The three together. *)
Definition consistent (d : Database) : Prop :=
  namespaces_keyed d ∧ containerIDs_keyed d ∧ cache_within_namespaces d.

#[global] Instance containerIDs_keyed_dec d : Decision (containerIDs_keyed d).
Proof. unfold containerIDs_keyed. apply _. Defined.

#[global] Instance cache_within_namespaces_dec d :
  Decision (cache_within_namespaces d).
Proof. unfold cache_within_namespaces. apply _. Defined.

(** What happens to a database: the calls of the process discovery and of
    the telemetry pipeline, and the events of the informer. [EvProcess] is
    an [AddProcess] for which the inspector answered [ifp]. *)
Inductive Event :=
| EvOnDeletion (containerID : list string)
| EvAddProcess (pid : uint32)
| EvProcess (ifp : container.Info)
| EvCleanProcessCaches (ns : uint32)
| EvOwnerPodInfo (pidNamespace : uint32)
| EvPodAdd (obj : ptr)
| EvPodUpdate (oldObj newObj : ptr)
| EvPodDelete (obj : ptr)
| EvServiceAdd (obj : ptr)
| EvServiceUpdate (oldObj newObj : ptr)
| EvServiceDelete (obj : ptr)
| EvNodeAdd (obj : ptr)
| EvNodeUpdate (oldObj newObj : ptr)
| EvNodeDelete (obj : ptr).

Section Events.
Context {O Md : Type}.
Variable GetContainerPod : Md → string → option ptr.
Variable FetchPodOwnerInfo : Md → PodInfo.t O → O.
Variable InfoForPID : uint32 → container.Info + error.

Definition handle (e : Event) : M O Md unit :=
  match e with
  | EvOnDeletion containerID => OnDeletion containerID
  | EvAddProcess pid => AddProcess InfoForPID pid
  | EvProcess ifp => addProcess ifp
  | EvCleanProcessCaches ns => CleanProcessCaches ns
  | EvOwnerPodInfo ns =>
      OwnerPodInfo GetContainerPod FetchPodOwnerInfo ns >> ret tt
  | EvPodAdd obj => PodEventHandler_AddFunc obj
  | EvPodUpdate oldObj newObj => PodEventHandler_UpdateFunc oldObj newObj
  | EvPodDelete obj => PodEventHandler_DeleteFunc obj
  | EvServiceAdd obj => ServiceEventHandler_AddFunc obj
  | EvServiceUpdate oldObj newObj => ServiceEventHandler_UpdateFunc oldObj newObj
  | EvServiceDelete obj => ServiceEventHandler_DeleteFunc obj
  | EvNodeAdd obj => NodeEventHandler_AddFunc obj
  | EvNodeUpdate oldObj newObj => NodeEventHandler_UpdateFunc oldObj newObj
  | EvNodeDelete obj => NodeEventHandler_DeleteFunc obj
  end.

(** The worlds of a database since [CreateDatabase]: it handles events,
    and between two events the informer and its objects may change in any
    way. *)
Inductive reachable : World O Md → Prop :=
| reachable_create md pods svcs nodes :
    reachable (mkWorld CreateDatabase md pods svcs nodes [])
| reachable_handle e w :
    reachable w → reachable (exec (handle e) w)
| reachable_informer md pods svcs nodes w :
    reachable w → reachable (mkWorld (db w) md pods svcs nodes (calls w)).

End Events.

(** ** A container with two PID namespaces *)

(** No index remembers the container [cid] any more: the container-ID
    index has no entry for it, no entry of the namespace index holds a
    container.Info of it, and the pod cache has no entry for the PID
    namespace of any container.Info of it that the namespace index held
    [before]. *)
Definition forgotten (cid : string) (before after : Database) : Prop :=
  containerIDs after !! cid = None ∧
  (∀ (ns : uint32) info,
     namespaces after !! ns = Some info → ContainerID info ≠ cid) ∧
  (∀ (ns : uint32) info,
     namespaces before !! ns = Some info → ContainerID info = cid →
     fetchedPodsCache after !! PIDNamespace info = None).

(** The process 100 of the container c1 was added, the pod of its
    namespace 7 was looked up, and then the process 102 of c1, which is in
    the namespace 8, was added. *)
Definition w_two_namespaces : World Scenario.Owner Scenario.Metadata :=
  let step :=
    handle Scenario.GetContainerPod Scenario.FetchPodOwnerInfo
           Scenario.InfoForPID in
  exec (step (EvAddProcess 102%N))
    (exec (step (EvOwnerPodInfo 7%N))
       (exec (step (EvAddProcess 100%N)) Scenario.w0)).

(** ** Properties *)

(** The steps of the monad, unfolded. *)
Ltac go_unfold :=
  unfold result, exec, bind, ret, load, update, pod_field, svc_field,
    node_field, with_db in *; simpl in *.

Section Properties.
Context {O Md : Type}.
Variable ServiceName : PodInfo.t O → string.
Variable GetContainerPod : Md → string → option ptr.
Variable FetchPodOwnerInfo : Md → PodInfo.t O → O.
Variable InfoForPID : uint32 → container.Info + error.

Implicit Types (w : World O Md) (d : Database) (ip cid : string).

(** *** The loops *)

Lemma with_db_id w : with_db (λ d, d) w = w.
Proof. by destruct w. Qed.

Lemma for_range_fold {A} (l : list A) (body : A → M O Md unit)
    (f : A → Database → Database) :
  (∀ x w, body x w = (tt, with_db (f x) w)) →
  ∀ w, for_range l body w = (tt, with_db (λ d, foldl (λ d x, f x d) d l) w).
Proof.
  intros Hbody. induction l as [|x l IH]; intros w; simpl.
  - by rewrite with_db_id.
  - unfold bind. by rewrite Hbody, IH.
Qed.

Lemma OnDeletion_fold (l : list string) w :
  OnDeletion l w = (tt, with_db (λ d, foldl deleteOne d l) w).
Proof.
  unfold OnDeletion.
  apply (for_range_fold l _ (λ cid d, deleteOne d cid)).
  clear. intros cid w. unfold deleteOne, deletePodCache. go_unfold.
  by destruct (containerIDs (db w) !! cid).
Qed.

Lemma exec_OnDeletion (l : list string) w :
  exec (OnDeletion l) w = with_db (λ d, foldl deleteOne d l) w.
Proof. unfold exec. by rewrite OnDeletion_fold. Qed.

(** *** One deletion *)

Lemma deleteOne_containerIDs d cid :
  containerIDs (deleteOne d cid) = delete cid (containerIDs d).
Proof. unfold deleteOne. by destruct (containerIDs d !! cid). Qed.

Lemma deleteOne_unknown d cid :
  containerIDs d !! cid = None → deleteOne d cid = d.
Proof.
  intros H. unfold deleteOne. rewrite H. destruct d; unfold set_containerIDs; simpl in *.
  f_equal. by apply delete_id.
Qed.

Lemma deleteOne_stays_unknown d cid c :
  containerIDs d !! c = None → containerIDs (deleteOne d cid) !! c = None.
Proof.
  intros H. rewrite deleteOne_containerIDs.
  apply lookup_delete_None. by right.
Qed.

Lemma deletes_stay_unknown (l : list string) d c :
  containerIDs d !! c = None → containerIDs (foldl deleteOne d l) !! c = None.
Proof.
  revert d. induction l as [|cid l IH]; intros d H; simpl; [done|].
  apply IH. by apply deleteOne_stays_unknown.
Qed.

Lemma deletes_all_unknown (l : list string) d :
  (∀ c, c ∈ l → containerIDs d !! c = None) → foldl deleteOne d l = d.
Proof.
  revert d. induction l as [|cid l IH]; intros d H; simpl; [done|].
  rewrite deleteOne_unknown by (apply H; left).
  apply IH. intros c Hc. apply H. by right.
Qed.

Lemma deletes_forget (l : list string) d c :
  c ∈ l → containerIDs (foldl deleteOne d l) !! c = None.
Proof.
  revert d. induction l as [|cid l IH]; intros d Hc; simpl.
  - by apply elem_of_nil in Hc.
  - destruct (decide (c = cid)) as [->|Hne].
    + apply deletes_stay_unknown. rewrite deleteOne_containerIDs.
      apply lookup_delete_eq.
    + apply IH. apply elem_of_cons in Hc as [?|?]; [done|done].
Qed.

(** *** The pod index *)

Lemma exec_UpdateNewPodsByIPIndex w (pod : ptr) :
  exec (UpdateNewPodsByIPIndex pod) w
  = with_db (λ d, foldl (λ d ip, set_podsByIP (<[ip := pod]>) d) d
                        (IPs (PodInfo.IPInfo (podObjs w pod)))) w.
Proof.
  unfold UpdateNewPodsByIPIndex, exec, bind, pod_field.
  destruct (decide _) as [Hlen|Hlen].
  - by rewrite (for_range_fold _ _ (λ ip, set_podsByIP (<[ip := pod]>))).
  - destruct (IPs _); simpl in *; [by rewrite with_db_id | lia].
Qed.

Lemma exec_UpdateDeletedPodsByIPIndex w (pod : ptr) :
  exec (UpdateDeletedPodsByIPIndex pod) w
  = with_db (λ d, foldl (λ d ip, set_podsByIP (delete ip) d) d
                        (IPs (PodInfo.IPInfo (podObjs w pod)))) w.
Proof.
  unfold UpdateDeletedPodsByIPIndex, exec, bind, pod_field.
  destruct (decide _) as [Hlen|Hlen].
  - by rewrite (for_range_fold _ _ (λ ip, set_podsByIP (delete ip))).
  - destruct (IPs _); simpl in *; [by rewrite with_db_id | lia].
Qed.

Lemma inserts_keep (l : list string) d ip (pod : ptr) :
  podsByIP d !! ip = Some pod →
  podsByIP (foldl (λ d x, set_podsByIP (<[x := pod]>) d) d l) !! ip = Some pod.
Proof.
  revert d. induction l as [|x l IH]; intros d H; simpl; [done|].
  apply IH. simpl. destruct (decide (x = ip)) as [->|Hne].
  - apply lookup_insert_eq.
  - by rewrite lookup_insert_ne.
Qed.

Lemma inserts_lookup (l : list string) d ip (pod : ptr) :
  ip ∈ l →
  podsByIP (foldl (λ d x, set_podsByIP (<[x := pod]>) d) d l) !! ip = Some pod.
Proof.
  revert d. induction l as [|x l IH]; intros d Hin; simpl.
  - by apply elem_of_nil in Hin.
  - destruct (decide (ip = x)) as [->|Hne].
    + apply inserts_keep. simpl. apply lookup_insert_eq.
    + apply IH. by apply elem_of_cons in Hin as [?|?].
Qed.

Lemma removals_keep (l : list string) d ip :
  podsByIP d !! ip = None →
  podsByIP (foldl (λ d x, set_podsByIP (delete x) d) d l) !! ip = None.
Proof.
  revert d. induction l as [|x l IH]; intros d H; simpl; [done|].
  apply IH. simpl. apply lookup_delete_None. by right.
Qed.

Lemma removals_lookup (l : list string) d ip :
  ip ∈ l →
  podsByIP (foldl (λ d x, set_podsByIP (delete x) d) d l) !! ip = None.
Proof.
  revert d. induction l as [|x l IH]; intros d Hin; simpl.
  - by apply elem_of_nil in Hin.
  - destruct (decide (ip = x)) as [->|Hne].
    + apply removals_keep. simpl. apply lookup_delete_eq.
    + apply IH. by apply elem_of_cons in Hin as [?|?].
Qed.

(** *** The pod cache *)

(** [OwnerPodInfo] writes at most one entry, in the pod cache. *)
Lemma OwnerPodInfo_db w (ns : uint32) :
  let w' := exec (OwnerPodInfo GetContainerPod FetchPodOwnerInfo ns) w in
  db w' = db w ∨
  ∃ pod : ptr, db w' = set_fetchedPodsCache (<[ns := pod]>) (db w).
Proof.
  unfold OwnerPodInfo, call_GetContainerPod, call_FetchPodOwnerInfo.
  go_unfold.
  destruct (fetchedPodsCache (db w) !! ns); simpl; [by left|].
  destruct (namespaces (db w) !! ns) as [info|]; simpl; [|by left].
  destruct (GetContainerPod (informer w) (ContainerID info)) as [pod|];
    simpl; [|by left].
  right. by exists pod.
Qed.

(** *** The namespace index stays keyed by PID namespace *)

Lemma namespaces_keyed_CreateDatabase : namespaces_keyed CreateDatabase.
Proof. apply map_Forall_empty. Qed.

Lemma namespaces_keyed_deleteOne d cid :
  namespaces_keyed d → namespaces_keyed (deleteOne d cid).
Proof.
  unfold namespaces_keyed, deleteOne. intros H.
  destruct (containerIDs d !! cid); simpl; [|done].
  by apply map_Forall_delete.
Qed.

Lemma namespaces_keyed_OnDeletion (l : list string) w :
  namespaces_keyed (db w) → namespaces_keyed (db (exec (OnDeletion l) w)).
Proof.
  rewrite exec_OnDeletion. simpl. generalize (db w). clear w.
  induction l as [|cid l IH]; intros d H; simpl; [done|].
  by apply IH, namespaces_keyed_deleteOne.
Qed.

Lemma namespaces_keyed_AddProcess (pid : uint32) w :
  namespaces_keyed (db w) →
  namespaces_keyed (db (exec (AddProcess InfoForPID pid) w)).
Proof.
  unfold namespaces_keyed, AddProcess, call_InfoForPID, addProcess,
    deletePodCache. go_unfold. intros H.
  destruct (InfoForPID pid) as [ifp|err]; simpl; [|done].
  by apply map_Forall_insert_2.
Qed.

Lemma namespaces_keyed_CleanProcessCaches (ns : uint32) w :
  namespaces_keyed (db w) →
  namespaces_keyed (db (exec (CleanProcessCaches ns) w)).
Proof. done. Qed.

Lemma namespaces_keyed_OwnerPodInfo (ns : uint32) w :
  namespaces_keyed (db w) →
  namespaces_keyed
    (db (exec (OwnerPodInfo GetContainerPod FetchPodOwnerInfo ns) w)).
Proof. by destruct (OwnerPodInfo_db w ns) as [->|[pod ->]]. Qed.

(** The six updates of the IP indexes write no other map. *)
Lemma for_range_namespaces {A} (l : list A) (f : A → Database → Database) w :
  (∀ x d, namespaces (f x d) = namespaces d) →
  namespaces (db (snd (for_range l (λ x, update (f x)) w))) = namespaces (db w).
Proof.
  intros Hf.
  rewrite (for_range_fold l _ f) by done. simpl.
  generalize (db w). clear w.
  induction l as [|x l IH]; intros d; simpl; [done|].
  by rewrite IH, Hf.
Qed.

Lemma namespaces_keyed_ip_updates (p : ptr) w :
  namespaces_keyed (db w) →
  namespaces_keyed (db (exec (UpdateNewPodsByIPIndex p) w)) ∧
  namespaces_keyed (db (exec (UpdateDeletedPodsByIPIndex p) w)) ∧
  namespaces_keyed (db (exec (UpdateNewServicesByIPIndex p) w)) ∧
  namespaces_keyed (db (exec (UpdateDeletedServicesByIPIndex p) w)) ∧
  namespaces_keyed (db (exec (UpdateNewNodesByIPIndex p) w)) ∧
  namespaces_keyed (db (exec (UpdateDeletedNodesByIPIndex p) w)).
Proof.
  intros H. unfold namespaces_keyed.
  unfold UpdateNewPodsByIPIndex, UpdateDeletedPodsByIPIndex,
    UpdateNewServicesByIPIndex, UpdateDeletedServicesByIPIndex,
    UpdateNewNodesByIPIndex, UpdateDeletedNodesByIPIndex.
  unfold pod_field, svc_field, node_field.
  repeat split; unfold exec, bind; simpl;
    (destruct (decide _); [|done]);
    by rewrite for_range_namespaces.
Qed.

(** C1: [HostNameForIP] and [ServiceNameNamespaceForIP] answer from the
    service index when the IP is in it (also when the pod index has the
    IP too), else from the pod index, else from the node index, else with
    empty strings. *)
Theorem C1_lookup_precedence w ip :
  let host := result (HostNameForIP ip) w in
  let sns := result (ServiceNameNamespaceForIP ServiceName ip) w in
  (∀ svc, svcByIP (db w) !! ip = Some svc →
     host = ServiceInfo.Name (svcObjs w svc) ∧
     sns = (ServiceInfo.Name (svcObjs w svc),
            ServiceInfo.Namespace (svcObjs w svc))) ∧
  (∀ svc pod, svcByIP (db w) !! ip = Some svc →
     podsByIP (db w) !! ip = Some pod →
     host = ServiceInfo.Name (svcObjs w svc) ∧
     sns = (ServiceInfo.Name (svcObjs w svc),
            ServiceInfo.Namespace (svcObjs w svc))) ∧
  (∀ pod, svcByIP (db w) !! ip = None →
     podsByIP (db w) !! ip = Some pod →
     host = PodInfo.Name (podObjs w pod) ∧
     sns = (ServiceName (podObjs w pod),
            PodInfo.Namespace (podObjs w pod))) ∧
  (∀ node, svcByIP (db w) !! ip = None →
     podsByIP (db w) !! ip = None →
     nodeByIP (db w) !! ip = Some node →
     host = NodeInfo.Name (nodeObjs w node) ∧
     sns = (NodeInfo.Name (nodeObjs w node),
            NodeInfo.Namespace (nodeObjs w node))) ∧
  (svcByIP (db w) !! ip = None →
     podsByIP (db w) !! ip = None →
     nodeByIP (db w) !! ip = None →
     host = "" ∧ sns = ("", "")).
Proof.
  unfold HostNameForIP, ServiceNameNamespaceForIP. go_unfold.
  repeat split; intros; repeat match goal with
    | H : _ !! _ = _ |- _ => rewrite H; clear H
    end; reflexivity.
Qed.

(** C5: a second [OnDeletion] of the same list of container IDs changes
    nothing, and [OnDeletion] of an ID that the container-ID index does
    not have leaves the world as it was. *)
Theorem C5_OnDeletion_idempotent :
  (∀ w (l : list string),
     exec (OnDeletion l) (exec (OnDeletion l) w) = exec (OnDeletion l) w) ∧
  (∀ w cid,
     containerIDs (db w) !! cid = None → exec (OnDeletion [cid]) w = w).
Proof.
  split.
  - intros w l. rewrite !exec_OnDeletion. unfold with_db; simpl. f_equal.
    apply deletes_all_unknown. intros c Hc. by apply deletes_forget.
  - intros w cid H. rewrite exec_OnDeletion. unfold with_db; simpl.
    rewrite deleteOne_unknown by done. by destruct w.
Qed.

(** C2: after [OnDeletion] of one container ID, the container-ID index
    has no entry for it, no entry of the namespace index holds the
    container.Info that was indexed under it, and the pod cache has no
    entry for the PID namespace of that container.Info. *)
Theorem C2_OnDeletion_forgets w cid :
  namespaces_keyed (db w) →
  let w' := exec (OnDeletion [cid]) w in
  containerIDs (db w') !! cid = None ∧
  ∀ info, containerIDs (db w) !! cid = Some info →
    (∀ ns, namespaces (db w') !! ns ≠ Some info) ∧
    fetchedPodsCache (db w') !! PIDNamespace info = None.
Proof.
  intros Hkeyed w'. subst w'. rewrite exec_OnDeletion. simpl. split.
  - rewrite deleteOne_containerIDs. apply lookup_delete_eq.
  - intros info Hinfo. unfold deleteOne. rewrite Hinfo. simpl. split.
    + intros ns Hns. apply lookup_delete_Some in Hns as [Hne Hns].
      apply Hkeyed in Hns. simpl in Hns. congruence.
    + apply lookup_delete_eq.
Qed.


(** C6: when [InfoForPID] fails for the PID, [AddProcess] changes none of
    the maps of the database (and nothing of the informer or its
    objects). *)
Theorem C6_AddProcess_error_keeps_state w pid err :
  InfoForPID pid = inr err →
  let w' := exec (AddProcess InfoForPID pid) w in
  db w' = db w ∧ informer w' = informer w ∧ podObjs w' = podObjs w ∧
  svcObjs w' = svcObjs w ∧ nodeObjs w' = nodeObjs w.
Proof.
  intros Herr. unfold AddProcess, call_InfoForPID. go_unfold.
  by rewrite Herr.
Qed.

(** C7: [CleanProcessCaches] deletes the key ns of the pod cache, keeps
    every other entry of the pod cache, and keeps the other five maps,
    the informer, its objects and the call log as they were. *)
Theorem C7_CleanProcessCaches_frame w (ns : uint32) :
  let w' := exec (CleanProcessCaches ns) w in
  fetchedPodsCache (db w') = delete ns (fetchedPodsCache (db w)) ∧
  (∀ ns' : uint32, ns' ≠ ns →
     fetchedPodsCache (db w') !! ns' = fetchedPodsCache (db w) !! ns') ∧
  namespaces (db w') = namespaces (db w) ∧
  containerIDs (db w') = containerIDs (db w) ∧
  podsByIP (db w') = podsByIP (db w) ∧
  svcByIP (db w') = svcByIP (db w) ∧
  nodeByIP (db w') = nodeByIP (db w) ∧
  informer w' = informer w ∧ podObjs w' = podObjs w ∧
  svcObjs w' = svcObjs w ∧ nodeObjs w' = nodeObjs w ∧ calls w' = calls w.
Proof.
  unfold CleanProcessCaches, deletePodCache. go_unfold.
  repeat split. intros ns' Hne. by apply lookup_delete_ne.
Qed.

(** C4: for a pod with IPs, after [UpdateNewPodsByIPIndex] the lookup
    [PodInfoForIP] of each of its IPs gives the pod (and changes
    nothing), and after a following [UpdateDeletedPodsByIPIndex] it
    gives nil. *)
Theorem C4_pod_index_round_trip w (pod : ptr) :
  let ips := IPs (PodInfo.IPInfo (podObjs w pod)) in
  0 < length ips →
  let w1 := exec (UpdateNewPodsByIPIndex pod) w in
  let w2 := exec (UpdateDeletedPodsByIPIndex pod) w1 in
  ∀ ip, ip ∈ ips →
    result (PodInfoForIP ip) w1 = Some pod ∧
    exec (PodInfoForIP ip) w1 = w1 ∧
    result (PodInfoForIP ip) w2 = None.
Proof.
  intros ips Hlen w1 w2 ip Hin. subst w2 w1.
  rewrite exec_UpdateDeletedPodsByIPIndex, exec_UpdateNewPodsByIPIndex.
  unfold PodInfoForIP, result, exec, load. simpl. repeat split.
  - by apply inserts_lookup.
  - by apply removals_lookup.
Qed.

(** C3: [OwnerPodInfo] answers (nil, false) exactly when the pod cache
    has no entry for the namespace and either the namespace index has
    none or [GetContainerPod] does not find the pod of the container;
    with a cached pod it answers that pod and true; and when
    [GetContainerPod] finds the pod, it answers that pod and true and
    the pod cache holds it under the namespace. *)
Theorem C3_OwnerPodInfo_result w (ns : uint32) :
  let r := result (OwnerPodInfo GetContainerPod FetchPodOwnerInfo ns) w in
  let w' := exec (OwnerPodInfo GetContainerPod FetchPodOwnerInfo ns) w in
  (r = (None, false) ↔
     fetchedPodsCache (db w) !! ns = None ∧
     (namespaces (db w) !! ns = None ∨
      ∃ info, namespaces (db w) !! ns = Some info ∧
              GetContainerPod (informer w) (ContainerID info) = None)) ∧
  (∀ pod, fetchedPodsCache (db w) !! ns = Some pod → r = (Some pod, true)) ∧
  (∀ info pod,
     fetchedPodsCache (db w) !! ns = None →
     namespaces (db w) !! ns = Some info →
     GetContainerPod (informer w) (ContainerID info) = Some pod →
     r = (Some pod, true) ∧
     fetchedPodsCache (db w') = <[ns := pod]> (fetchedPodsCache (db w)) ∧
     fetchedPodsCache (db w') !! ns = Some pod).
Proof.
  unfold OwnerPodInfo, call_GetContainerPod, call_FetchPodOwnerInfo.
  go_unfold.
  destruct (fetchedPodsCache (db w) !! ns) as [cached|] eqn:Hcache; simpl.
  { split; [|split]; [split|..].
    - intros [=].
    - intros [[=] _].
    - by intros pod [= ->].
    - intros ? ? [=]. }
  destruct (namespaces (db w) !! ns) as [info|] eqn:Hns; simpl.
  2: { split; [|split]; [split|..].
    - intros _. split; [done|]. by left.
    - done.
    - intros ? [=].
    - intros ? ? _ [=]. }
  destruct (GetContainerPod (informer w) (ContainerID info)) as [pod|] eqn:Hpod;
    simpl.
  - split; [|split]; [split|..].
    + intros [=].
    + intros [_ [[=]|(info' & [= <-] & H)]]. congruence.
    + intros ? [=].
    + intros info' pod' _ [= <-] Hpod'.
      assert (pod' = pod) as -> by congruence.
      repeat split. apply lookup_insert_eq.
  - split; [|split]; [split|..].
    + intros _. split; [done|]. right. by exists info.
    + done.
    + intros ? [=].
    + intros info' pod' _ [= <-] Hpod'. congruence.
Qed.

(** C8: whenever [OwnerPodInfo] answers a pod and true, the last call it
    made is [FetchPodOwnerInfo] on that pod, which wrote the owner fields
    of the pod: after a cache hit this is its only call, after a cache
    miss it follows the call of [GetContainerPod]. *)
Theorem C8_OwnerPodInfo_refreshes_owner w (ns : uint32) (pod : ptr) :
  result (OwnerPodInfo GetContainerPod FetchPodOwnerInfo ns) w = (Some pod, true) →
  let w' := exec (OwnerPodInfo GetContainerPod FetchPodOwnerInfo ns) w in
  last (calls w') = Some (CallFetchPodOwnerInfo pod) ∧
  (is_Some (fetchedPodsCache (db w) !! ns) →
     calls w' = calls w ++ [CallFetchPodOwnerInfo pod]) ∧
  (fetchedPodsCache (db w) !! ns = None →
     ∃ info, namespaces (db w) !! ns = Some info ∧
       calls w' = calls w ++ [CallGetContainerPod (ContainerID info);
                              CallFetchPodOwnerInfo pod]) ∧
  podObjs w' pod =
    PodInfo.setOwner (FetchPodOwnerInfo (informer w) (podObjs w pod))
                     (podObjs w pod).
Proof.
  unfold OwnerPodInfo, call_GetContainerPod, call_FetchPodOwnerInfo.
  go_unfold.
  destruct (fetchedPodsCache (db w) !! ns) as [cached|] eqn:Hcache; simpl.
  { intros [= ->]. repeat split.
    - apply last_snoc.
    - done.
    - apply fn_lookup_insert. }
  destruct (namespaces (db w) !! ns) as [info|] eqn:Hns; simpl; [|done].
  destruct (GetContainerPod (informer w) (ContainerID info)) as [p|] eqn:Hpod;
    simpl; [|done].
  intros [= ->]. repeat split.
  - apply last_snoc.
  - by intros [? [=]].
  - intros _. exists info. split; [done|]. by rewrite <- app_assoc.
  - apply fn_lookup_insert.
Qed.

(** C9: the five lookups by IP leave the world, and so the six maps, as
    they were. [OwnerPodInfo] writes no map but the pod cache, and does
    write it when it resolves a pod on a cache miss. *)
Theorem C9_lookups_read_only w ip :
  exec (PodInfoForIP ip) w = w ∧
  exec (ServiceInfoForIP ip) w = w ∧
  exec (NodeInfoForIP ip) w = w ∧
  exec (HostNameForIP ip) w = w ∧
  exec (ServiceNameNamespaceForIP ServiceName ip) w = w ∧
  (∀ ns : uint32,
     let w' := exec (OwnerPodInfo GetContainerPod FetchPodOwnerInfo ns) w in
     containerIDs (db w') = containerIDs (db w) ∧
     namespaces (db w') = namespaces (db w) ∧
     podsByIP (db w') = podsByIP (db w) ∧
     svcByIP (db w') = svcByIP (db w) ∧
     nodeByIP (db w') = nodeByIP (db w)) ∧
  (∀ (ns : uint32) info pod,
     fetchedPodsCache (db w) !! ns = None →
     namespaces (db w) !! ns = Some info →
     GetContainerPod (informer w) (ContainerID info) = Some pod →
     db (exec (OwnerPodInfo GetContainerPod FetchPodOwnerInfo ns) w) ≠ db w).
Proof.
  repeat split.
  - unfold HostNameForIP. go_unfold.
    by destruct (svcByIP (db w) !! ip), (podsByIP (db w) !! ip),
      (nodeByIP (db w) !! ip).
  - unfold ServiceNameNamespaceForIP. go_unfold.
    by destruct (svcByIP (db w) !! ip), (podsByIP (db w) !! ip),
      (nodeByIP (db w) !! ip).
  - by destruct (OwnerPodInfo_db w ns) as [->| [pod ->]].
  - by destruct (OwnerPodInfo_db w ns) as [->| [pod ->]].
  - by destruct (OwnerPodInfo_db w ns) as [->| [pod ->]].
  - by destruct (OwnerPodInfo_db w ns) as [->| [pod ->]].
  - by destruct (OwnerPodInfo_db w ns) as [->| [pod ->]].
  - intros ns info pod Hcache Hns Hpod.
    unfold OwnerPodInfo, call_GetContainerPod, call_FetchPodOwnerInfo.
    go_unfold. rewrite Hcache, Hns. simpl. rewrite Hpod. simpl.
    intros Heq. apply (f_equal (λ d, fetchedPodsCache d !! ns)) in Heq.
    simpl in Heq. rewrite lookup_insert_eq in Heq. congruence.
Qed.

End Properties.

(** ** More properties: the map of an IP index *)

Lemma lookup_insert_all (ips : list string) (obj : ptr)
    (m : gmap string positive) (ip : string) :
  insert_all ips obj m !! ip = if decide (ip ∈ ips) then Some obj else m !! ip.
Proof.
  unfold insert_all. revert m.
  induction ips as [|x ips IH]; intros m; cbn [foldl].
  - case_decide as Hin; [by apply elem_of_nil in Hin | done].
  - rewrite IH.
    destruct (decide (ip ∈ ips)) as [Hin|Hnin],
      (decide (ip ∈ x :: ips)) as [Hin'|Hnin']; try done.
    + exfalso. apply Hnin'. by right.
    + apply elem_of_cons in Hin' as [->|?]; [apply lookup_insert_eq | done].
    + apply lookup_insert_ne. intros ->. apply Hnin'. by left.
Qed.

Lemma lookup_delete_all (ips : list string) (m : gmap string positive)
    (ip : string) :
  delete_all ips m !! ip = if decide (ip ∈ ips) then None else m !! ip.
Proof.
  unfold delete_all. revert m.
  induction ips as [|x ips IH]; intros m; cbn [foldl].
  - case_decide as Hin; [by apply elem_of_nil in Hin | done].
  - rewrite IH.
    destruct (decide (ip ∈ ips)) as [Hin|Hnin],
      (decide (ip ∈ x :: ips)) as [Hin'|Hnin']; try done.
    + exfalso. apply Hnin'. by right.
    + apply elem_of_cons in Hin' as [->|?]; [apply lookup_delete_eq | done].
    + apply lookup_delete_ne. intros ->. apply Hnin'. by left.
Qed.

(** A loop of updates of one field is one update of that field. *)
Lemma foldl_set_field
    (set : (gmap string positive → gmap string positive) → Database → Database)
    (g : string → gmap string positive → gmap string positive) :
  (∀ f h d, set f (set h d) = set (λ m, f (h m)) d) →
  (∀ d, set (λ m, m) d = d) →
  ∀ (l : list string) d,
    foldl (λ d x, set (g x) d) d l = set (λ m, foldl (λ m x, g x m) m l) d.
Proof.
  intros Hcomp Hid l. induction l as [|x l IH]; intros d; simpl.
  - by rewrite Hid.
  - by rewrite IH, Hcomp.
Qed.

Lemma set_podsByIP_id d : set_podsByIP (λ m, m) d = d.
Proof. by destruct d. Qed.
Lemma set_svcByIP_id d : set_svcByIP (λ m, m) d = d.
Proof. by destruct d. Qed.
Lemma set_nodeByIP_id d : set_nodeByIP (λ m, m) d = d.
Proof. by destruct d. Qed.

Section IPIndexes.
Context {O Md : Type}.
Implicit Types (w : World O Md) (d : Database) (ip : string).

(** The six updates, as one update of the map of their index. *)
Ltac ip_update w set_field set_field_id :=
  intros; unfold exec, bind, pod_field, svc_field, node_field;
  match goal with |- context [decide ?P] => destruct (decide P) end;
  [ match goal with
    | |- context [for_range ?l (λ x, update (set_field (@?g x)))] =>
        rewrite (for_range_fold l _ (λ x, set_field (g x))) by done;
        simpl; unfold with_db, insert_all, delete_all; f_equal;
        rewrite (foldl_set_field set_field g);
        [done | done | apply set_field_id]
    end
  | match goal with
    | H : ¬ (0 < length ?l) |- _ =>
        assert (l = []) as -> by (destruct l; simpl in *; [done | lia])
    end;
    unfold with_db, insert_all, delete_all; simpl;
    rewrite set_field_id; by destruct w ].

Lemma run_UpdateNewPodsByIPIndex w (pod : ptr) :
  exec (UpdateNewPodsByIPIndex pod) w
  = with_db (set_podsByIP
               (insert_all (IPs (PodInfo.IPInfo (podObjs w pod))) pod)) w.
Proof. unfold UpdateNewPodsByIPIndex. ip_update w set_podsByIP set_podsByIP_id. Qed.

Lemma run_UpdateDeletedPodsByIPIndex w (pod : ptr) :
  exec (UpdateDeletedPodsByIPIndex pod) w
  = with_db (set_podsByIP
               (delete_all (IPs (PodInfo.IPInfo (podObjs w pod))))) w.
Proof. unfold UpdateDeletedPodsByIPIndex. ip_update w set_podsByIP set_podsByIP_id. Qed.

Lemma run_UpdateNewServicesByIPIndex w (svc : ptr) :
  exec (UpdateNewServicesByIPIndex svc) w
  = with_db (set_svcByIP
               (insert_all (IPs (ServiceInfo.IPInfo (svcObjs w svc))) svc)) w.
Proof. unfold UpdateNewServicesByIPIndex. ip_update w set_svcByIP set_svcByIP_id. Qed.

Lemma run_UpdateDeletedServicesByIPIndex w (svc : ptr) :
  exec (UpdateDeletedServicesByIPIndex svc) w
  = with_db (set_svcByIP
               (delete_all (IPs (ServiceInfo.IPInfo (svcObjs w svc))))) w.
Proof.
  unfold UpdateDeletedServicesByIPIndex. ip_update w set_svcByIP set_svcByIP_id.
Qed.

Lemma run_UpdateNewNodesByIPIndex w (node : ptr) :
  exec (UpdateNewNodesByIPIndex node) w
  = with_db (set_nodeByIP
               (insert_all (IPs (NodeInfo.IPInfo (nodeObjs w node))) node)) w.
Proof. unfold UpdateNewNodesByIPIndex. ip_update w set_nodeByIP set_nodeByIP_id. Qed.

Lemma run_UpdateDeletedNodesByIPIndex w (node : ptr) :
  exec (UpdateDeletedNodesByIPIndex node) w
  = with_db (set_nodeByIP
               (delete_all (IPs (NodeInfo.IPInfo (nodeObjs w node))))) w.
Proof.
  unfold UpdateDeletedNodesByIPIndex. ip_update w set_nodeByIP set_nodeByIP_id.
Qed.

(** A sequence of two steps. *)
Lemma bind_run {A B} (m : M O Md A) (k : A → M O Md B) w :
  bind m k w = k (result m w) (exec m w).
Proof. unfold bind, result, exec. by destruct (m w). Qed.

Lemma result_then {A B} (m : M O Md A) (k : M O Md B) w :
  result (m >> k) w = result k (exec m w).
Proof. unfold result at 1. by rewrite bind_run. Qed.

Lemma exec_then {A B} (m : M O Md A) (k : M O Md B) w :
  exec (m >> k) w = exec k (exec m w).
Proof. unfold exec at 1. by rewrite bind_run. Qed.

(** The answer of [HostNameForIP], read off the three maps. *)
Lemma HostNameForIP_result w ip :
  result (HostNameForIP ip) w
  = match svcByIP (db w) !! ip with
    | Some svc => ServiceInfo.Name (svcObjs w svc)
    | None =>
        match podsByIP (db w) !! ip with
        | Some pod => PodInfo.Name (podObjs w pod)
        | None =>
            match nodeByIP (db w) !! ip with
            | Some node => NodeInfo.Name (nodeObjs w node)
            | None => ""
            end
        end
    end.
Proof.
  unfold HostNameForIP, result, bind, load, svc_field, pod_field, node_field,
    ret. simpl.
  by destruct (svcByIP (db w) !! ip), (podsByIP (db w) !! ip),
    (nodeByIP (db w) !! ip).
Qed.

(** X1: [UpdateNewPodsByIPIndex] maps exactly the IPs of the pod to the pod,
    [UpdateDeletedPodsByIPIndex] unmaps exactly the IPs of the pod,
    whatever they were mapped to; every other IP keeps its entry, and
    putting the old pod index back gives the old world: nothing else is
    written. *)
Theorem pod_index_updates_exact w (pod : ptr) :
  let ips := IPs (PodInfo.IPInfo (podObjs w pod)) in
  let w1 := exec (UpdateNewPodsByIPIndex pod) w in
  let w2 := exec (UpdateDeletedPodsByIPIndex pod) w in
  (∀ ip, podsByIP (db w1) !! ip
         = if decide (ip ∈ ips) then Some pod else podsByIP (db w) !! ip) ∧
  (∀ ip, podsByIP (db w2) !! ip
         = if decide (ip ∈ ips) then None else podsByIP (db w) !! ip) ∧
  with_db (set_podsByIP (λ _, podsByIP (db w))) w1 = w ∧
  with_db (set_podsByIP (λ _, podsByIP (db w))) w2 = w.
Proof.
  intros ips w1 w2. subst w1 w2.
  rewrite run_UpdateNewPodsByIPIndex, run_UpdateDeletedPodsByIPIndex.
  split_and!.
  - intros ip. apply lookup_insert_all.
  - intros ip. apply lookup_delete_all.
  - by destruct w as [[] ? ? ? ? ?].
  - by destruct w as [[] ? ? ? ? ?].
Qed.

(** X2: [UpdateNewServicesByIPIndex] maps exactly the IPs of the service
    to the service, [UpdateDeletedServicesByIPIndex] unmaps exactly the
    IPs of the service, whatever they were mapped to; every other IP keeps
    its entry, and nothing but the service index is written. *)
Theorem service_index_updates_exact w (svc : ptr) :
  let ips := IPs (ServiceInfo.IPInfo (svcObjs w svc)) in
  let w1 := exec (UpdateNewServicesByIPIndex svc) w in
  let w2 := exec (UpdateDeletedServicesByIPIndex svc) w in
  (∀ ip, svcByIP (db w1) !! ip
         = if decide (ip ∈ ips) then Some svc else svcByIP (db w) !! ip) ∧
  (∀ ip, svcByIP (db w2) !! ip
         = if decide (ip ∈ ips) then None else svcByIP (db w) !! ip) ∧
  with_db (set_svcByIP (λ _, svcByIP (db w))) w1 = w ∧
  with_db (set_svcByIP (λ _, svcByIP (db w))) w2 = w.
Proof.
  intros ips w1 w2. subst w1 w2.
  rewrite run_UpdateNewServicesByIPIndex, run_UpdateDeletedServicesByIPIndex.
  split_and!.
  - intros ip. apply lookup_insert_all.
  - intros ip. apply lookup_delete_all.
  - by destruct w as [[] ? ? ? ? ?].
  - by destruct w as [[] ? ? ? ? ?].
Qed.

(** X3: [UpdateNewNodesByIPIndex] maps exactly the IPs of the node to the
    node, [UpdateDeletedNodesByIPIndex] unmaps exactly the IPs of the node,
    whatever they were mapped to; every other IP keeps its entry, and
    nothing but the node index is written. *)
Theorem node_index_updates_exact w (node : ptr) :
  let ips := IPs (NodeInfo.IPInfo (nodeObjs w node)) in
  let w1 := exec (UpdateNewNodesByIPIndex node) w in
  let w2 := exec (UpdateDeletedNodesByIPIndex node) w in
  (∀ ip, nodeByIP (db w1) !! ip
         = if decide (ip ∈ ips) then Some node else nodeByIP (db w) !! ip) ∧
  (∀ ip, nodeByIP (db w2) !! ip
         = if decide (ip ∈ ips) then None else nodeByIP (db w) !! ip) ∧
  with_db (set_nodeByIP (λ _, nodeByIP (db w))) w1 = w ∧
  with_db (set_nodeByIP (λ _, nodeByIP (db w))) w2 = w.
Proof.
  intros ips w1 w2. subst w1 w2.
  rewrite run_UpdateNewNodesByIPIndex, run_UpdateDeletedNodesByIPIndex.
  split_and!.
  - intros ip. apply lookup_insert_all.
  - intros ip. apply lookup_delete_all.
  - by destruct w as [[] ? ? ? ? ?].
  - by destruct w as [[] ? ? ? ? ?].
Qed.

(** X4: An object without IPs: the six updates leave the world as it was. *)
Theorem ip_updates_without_IPs w (obj : ptr) :
  (IPs (PodInfo.IPInfo (podObjs w obj)) = [] →
     exec (UpdateNewPodsByIPIndex obj) w = w ∧
     exec (UpdateDeletedPodsByIPIndex obj) w = w) ∧
  (IPs (ServiceInfo.IPInfo (svcObjs w obj)) = [] →
     exec (UpdateNewServicesByIPIndex obj) w = w ∧
     exec (UpdateDeletedServicesByIPIndex obj) w = w) ∧
  (IPs (NodeInfo.IPInfo (nodeObjs w obj)) = [] →
     exec (UpdateNewNodesByIPIndex obj) w = w ∧
     exec (UpdateDeletedNodesByIPIndex obj) w = w).
Proof.
  split_and!; intros Hips.
  - rewrite run_UpdateNewPodsByIPIndex, run_UpdateDeletedPodsByIPIndex, Hips.
    by destruct w as [[] ? ? ? ? ?].
  - rewrite run_UpdateNewServicesByIPIndex,
      run_UpdateDeletedServicesByIPIndex, Hips.
    by destruct w as [[] ? ? ? ? ?].
  - rewrite run_UpdateNewNodesByIPIndex, run_UpdateDeletedNodesByIPIndex, Hips.
    by destruct w as [[] ? ? ? ? ?].
Qed.

(** X5: A service that is added answers [ServiceInfoForIP] and
    [HostNameForIP] for each of its IPs; once it is deleted,
    [ServiceInfoForIP] answers nil and [HostNameForIP] answers from the
    pod index, else from the node index, else with the empty string. *)
Theorem service_index_round_trip w (svc : ptr) ip :
  ip ∈ IPs (ServiceInfo.IPInfo (svcObjs w svc)) →
  let w1 := exec (UpdateNewServicesByIPIndex svc) w in
  let w2 := exec (UpdateDeletedServicesByIPIndex svc) w1 in
  result (ServiceInfoForIP ip) w1 = Some svc ∧
  result (HostNameForIP ip) w1 = ServiceInfo.Name (svcObjs w svc) ∧
  result (ServiceInfoForIP ip) w2 = None ∧
  (∀ pod, podsByIP (db w) !! ip = Some pod →
     result (HostNameForIP ip) w2 = PodInfo.Name (podObjs w pod)) ∧
  (∀ node, podsByIP (db w) !! ip = None → nodeByIP (db w) !! ip = Some node →
     result (HostNameForIP ip) w2 = NodeInfo.Name (nodeObjs w node)) ∧
  (podsByIP (db w) !! ip = None → nodeByIP (db w) !! ip = None →
     result (HostNameForIP ip) w2 = "").
Proof.
  intros Hin w1 w2.
  assert (H1 : svcByIP (db w1) !! ip = Some svc).
  { subst w1. rewrite run_UpdateNewServicesByIPIndex. simpl.
    rewrite lookup_insert_all. by rewrite decide_True. }
  assert (H2 : svcByIP (db w2) !! ip = None).
  { subst w2. rewrite run_UpdateDeletedServicesByIPIndex. simpl.
    rewrite lookup_delete_all. rewrite decide_True; [done|].
    subst w1. by rewrite run_UpdateNewServicesByIPIndex. }
  assert (Hw2 : podsByIP (db w2) = podsByIP (db w) ∧
                nodeByIP (db w2) = nodeByIP (db w) ∧
                podObjs w2 = podObjs w ∧ nodeObjs w2 = nodeObjs w).
  { subst w2 w1.
    by rewrite run_UpdateDeletedServicesByIPIndex,
      run_UpdateNewServicesByIPIndex. }
  destruct Hw2 as (Hpods & Hnodes & Hpobj & Hnobj).
  assert (Hobj : svcObjs w1 = svcObjs w).
  { subst w1. by rewrite run_UpdateNewServicesByIPIndex. }
  rewrite !HostNameForIP_result. unfold ServiceInfoForIP, result, load. simpl.
  rewrite H1, H2, Hpods, Hnodes, Hpobj, Hnobj, Hobj. split_and!; try done.
  - by intros pod ->.
  - by intros node -> ->.
  - by intros -> ->.
Qed.

(** X6: A node that is added answers [NodeInfoForIP] for each of its IPs, and
    [HostNameForIP] too when neither a service nor a pod has the IP; once
    it is deleted, [NodeInfoForIP] answers nil. *)
Theorem node_index_round_trip w (node : ptr) ip :
  ip ∈ IPs (NodeInfo.IPInfo (nodeObjs w node)) →
  let w1 := exec (UpdateNewNodesByIPIndex node) w in
  let w2 := exec (UpdateDeletedNodesByIPIndex node) w1 in
  result (NodeInfoForIP ip) w1 = Some node ∧
  (svcByIP (db w) !! ip = None → podsByIP (db w) !! ip = None →
     result (HostNameForIP ip) w1 = NodeInfo.Name (nodeObjs w node)) ∧
  result (NodeInfoForIP ip) w2 = None ∧
  (svcByIP (db w) !! ip = None → podsByIP (db w) !! ip = None →
     result (HostNameForIP ip) w2 = "").
Proof.
  intros Hin w1 w2.
  assert (H1 : nodeByIP (db w1) !! ip = Some node).
  { subst w1. rewrite run_UpdateNewNodesByIPIndex. simpl.
    rewrite lookup_insert_all. by rewrite decide_True. }
  assert (H2 : nodeByIP (db w2) !! ip = None).
  { subst w2. rewrite run_UpdateDeletedNodesByIPIndex. simpl.
    rewrite lookup_delete_all. rewrite decide_True; [done|].
    subst w1. by rewrite run_UpdateNewNodesByIPIndex. }
  assert (Hw1 : podsByIP (db w1) = podsByIP (db w) ∧
                svcByIP (db w1) = svcByIP (db w) ∧
                nodeObjs w1 = nodeObjs w).
  { subst w1. by rewrite run_UpdateNewNodesByIPIndex. }
  assert (Hw2 : podsByIP (db w2) = podsByIP (db w) ∧
                svcByIP (db w2) = svcByIP (db w)).
  { subst w2 w1.
    by rewrite run_UpdateDeletedNodesByIPIndex, run_UpdateNewNodesByIPIndex. }
  destruct Hw1 as (Hpods1 & Hsvc1 & Hobj1). destruct Hw2 as (Hpods2 & Hsvc2).
  rewrite !HostNameForIP_result. unfold NodeInfoForIP, result, load. simpl.
  rewrite H1, H2, Hpods1, Hsvc1, Hobj1, Hpods2, Hsvc2.
  split_and!; try done.
  - by intros -> ->.
  - by intros -> ->.
Qed.

(** X7: Deletion is by key. When two pods a and b have an IP in common and
    both were added, b last, the IP maps to b; the deletion of a then
    unmaps the IP, though b was not deleted. *)
Theorem pod_delete_unmaps_shared_IP w (a b : ptr) ip :
  ip ∈ IPs (PodInfo.IPInfo (podObjs w a)) →
  ip ∈ IPs (PodInfo.IPInfo (podObjs w b)) →
  result (UpdateNewPodsByIPIndex a >> UpdateNewPodsByIPIndex b >>
          PodInfoForIP ip) w = Some b ∧
  result (UpdateNewPodsByIPIndex a >> UpdateNewPodsByIPIndex b >>
          UpdateDeletedPodsByIPIndex a >> PodInfoForIP ip) w = None.
Proof.
  intros Ha Hb.
  rewrite !result_then.
  rewrite run_UpdateDeletedPodsByIPIndex.
  rewrite (run_UpdateNewPodsByIPIndex (exec _ w)).
  rewrite run_UpdateNewPodsByIPIndex.
  unfold PodInfoForIP, result, load. simpl. split.
  - rewrite lookup_insert_all. by rewrite decide_True.
  - rewrite lookup_delete_all. by rewrite decide_True.
Qed.

(** X8: The update handlers of [StartDatabase] delete the old object, then add
    the new one: an IP of the new object maps to it, another IP of the old
    object is unmapped, and every other IP keeps its entry. *)
Theorem update_events_exact w (oldObj newObj : ptr) ip :
  podsByIP (db (exec (PodEventHandler_UpdateFunc oldObj newObj) w)) !! ip
  = (if decide (ip ∈ IPs (PodInfo.IPInfo (podObjs w newObj))) then Some newObj
     else if decide (ip ∈ IPs (PodInfo.IPInfo (podObjs w oldObj))) then None
     else podsByIP (db w) !! ip) ∧
  svcByIP (db (exec (ServiceEventHandler_UpdateFunc oldObj newObj) w)) !! ip
  = (if decide (ip ∈ IPs (ServiceInfo.IPInfo (svcObjs w newObj))) then Some newObj
     else if decide (ip ∈ IPs (ServiceInfo.IPInfo (svcObjs w oldObj))) then None
     else svcByIP (db w) !! ip) ∧
  nodeByIP (db (exec (NodeEventHandler_UpdateFunc oldObj newObj) w)) !! ip
  = (if decide (ip ∈ IPs (NodeInfo.IPInfo (nodeObjs w newObj))) then Some newObj
     else if decide (ip ∈ IPs (NodeInfo.IPInfo (nodeObjs w oldObj))) then None
     else nodeByIP (db w) !! ip).
Proof.
  unfold PodEventHandler_UpdateFunc, ServiceEventHandler_UpdateFunc,
    NodeEventHandler_UpdateFunc.
  rewrite !exec_then.
  rewrite run_UpdateNewPodsByIPIndex, run_UpdateDeletedPodsByIPIndex.
  rewrite run_UpdateNewServicesByIPIndex, run_UpdateDeletedServicesByIPIndex.
  rewrite run_UpdateNewNodesByIPIndex, run_UpdateDeletedNodesByIPIndex.
  simpl. by rewrite !lookup_insert_all, !lookup_delete_all.
Qed.

End IPIndexes.

(** ** More properties: processes, containers and the pod cache *)

(** *** Deletions only remove *)

Lemma deleteOne_namespaces d cid :
  namespaces (deleteOne d cid) ⊆ namespaces d.
Proof.
  unfold deleteOne. destruct (containerIDs d !! cid); simpl; [|done].
  apply delete_subseteq.
Qed.

Lemma deleteOne_fetchedPodsCache d cid :
  fetchedPodsCache (deleteOne d cid) ⊆ fetchedPodsCache d.
Proof.
  unfold deleteOne. destruct (containerIDs d !! cid); simpl; [|done].
  apply delete_subseteq.
Qed.

Lemma deletes_namespaces (l : list string) d :
  namespaces (foldl deleteOne d l) ⊆ namespaces d.
Proof.
  revert d. induction l as [|cid l IH]; intros d; simpl; [done|].
  etrans; [apply IH | apply deleteOne_namespaces].
Qed.

Lemma deletes_fetchedPodsCache (l : list string) d :
  fetchedPodsCache (foldl deleteOne d l) ⊆ fetchedPodsCache d.
Proof.
  revert d. induction l as [|cid l IH]; intros d; simpl; [done|].
  etrans; [apply IH | apply deleteOne_fetchedPodsCache].
Qed.

Lemma deletes_ip_indexes (l : list string) d :
  podsByIP (foldl deleteOne d l) = podsByIP d ∧
  svcByIP (foldl deleteOne d l) = svcByIP d ∧
  nodeByIP (foldl deleteOne d l) = nodeByIP d.
Proof.
  revert d. induction l as [|cid l IH]; intros d; simpl; [done|].
  destruct (IH (deleteOne d cid)) as (-> & -> & ->).
  unfold deleteOne. by destruct (containerIDs d !! cid).
Qed.

Lemma deletes_containerIDs (l : list string) d (cid : string) :
  containerIDs (foldl deleteOne d l) !! cid
  = if decide (cid ∈ l) then None else containerIDs d !! cid.
Proof.
  destruct (decide (cid ∈ l)) as [Hin|Hnin]; [by apply deletes_forget|].
  revert d. induction l as [|x l IH]; intros d; simpl; [done|].
  apply not_elem_of_cons in Hnin as [Hne Hnin].
  rewrite IH by done. rewrite deleteOne_containerIDs.
  by apply lookup_delete_ne.
Qed.

(** The namespace of a container of the batch is dropped from the
    namespace index and from the pod cache. *)
Lemma deletes_unindex_namespace (l : list string) d (cid : string) info :
  cid ∈ l → containerIDs d !! cid = Some info →
  namespaces (foldl deleteOne d l) !! PIDNamespace info = None ∧
  fetchedPodsCache (foldl deleteOne d l) !! PIDNamespace info = None.
Proof.
  revert d. induction l as [|x l IH]; intros d Hin Hcid; simpl.
  - by apply elem_of_nil in Hin.
  - destruct (decide (x = cid)) as [->|Hne].
    + split.
      * eapply lookup_weaken_None; [|apply deletes_namespaces].
        unfold deleteOne. rewrite Hcid. simpl. apply lookup_delete_eq.
      * eapply lookup_weaken_None; [|apply deletes_fetchedPodsCache].
        unfold deleteOne. rewrite Hcid. simpl. apply lookup_delete_eq.
    + apply IH.
      * apply elem_of_cons in Hin as [?|?]; [congruence | done].
      * rewrite deleteOne_containerIDs. by rewrite lookup_delete_ne.
Qed.

(** The namespaces of the other containers are kept. *)
Lemma deletes_keep_namespace (l : list string) d (ns : uint32) :
  (∀ cid info, cid ∈ l → containerIDs d !! cid = Some info →
               PIDNamespace info ≠ ns) →
  namespaces (foldl deleteOne d l) !! ns = namespaces d !! ns ∧
  fetchedPodsCache (foldl deleteOne d l) !! ns = fetchedPodsCache d !! ns.
Proof.
  revert d. induction l as [|x l IH]; intros d Hother; simpl; [done|].
  destruct (IH (deleteOne d x)) as [-> ->].
  - intros cid info Hin Hcid. rewrite deleteOne_containerIDs in Hcid.
    apply lookup_delete_Some in Hcid as [_ Hcid].
    apply (Hother cid info); [by right | done].
  - unfold deleteOne.
    destruct (containerIDs d !! x) as [info|] eqn:Hx; simpl; [|done].
    assert (PIDNamespace info ≠ ns) by (apply (Hother x info); [by left | done]).
    by rewrite !lookup_delete_ne.
Qed.

(** Two deletions commute. *)
Lemma deleteOne_comm d (a b : string) :
  deleteOne (deleteOne d a) b = deleteOne (deleteOne d b) a.
Proof.
  destruct (decide (a = b)) as [->|Hne]; [done|].
  unfold deleteOne at 1 3. rewrite !deleteOne_containerIDs.
  rewrite !lookup_delete_ne by done.
  unfold deleteOne.
  destruct (containerIDs d !! a) as [ia|], (containerIDs d !! b) as [ib|];
    unfold set_namespaces, set_fetchedPodsCache, set_containerIDs; simpl;
    f_equal; apply delete_delete.
Qed.

Lemma deletes_permutation (l1 l2 : list string) d :
  l1 ≡ₚ l2 → foldl deleteOne d l1 = foldl deleteOne d l2.
Proof.
  intros Hperm. revert d.
  induction Hperm as [|x l l' _ IH|x y l|l l' l'' _ IH1 _ IH2]; intros d; simpl.
  - done.
  - apply IH.
  - by rewrite deleteOne_comm.
  - by rewrite IH1.
Qed.

(** *** The three invariants, step by step *)

Lemma consistent_CreateDatabase : consistent CreateDatabase.
Proof. split_and!; apply map_Forall_empty. Qed.

Lemma consistent_deleteOne d cid : consistent d → consistent (deleteOne d cid).
Proof.
  unfold consistent, namespaces_keyed, containerIDs_keyed,
    cache_within_namespaces in *.
  intros (Hns & Hcid & Hcache). unfold deleteOne.
  destruct (containerIDs d !! cid) as [info|]; simpl; split_and!.
  - by apply map_Forall_delete.
  - by apply map_Forall_delete.
  - intros ns pod [Hne Hpod]%lookup_delete_Some.
    rewrite lookup_delete_ne by done. by apply (Hcache ns pod).
  - done.
  - by apply map_Forall_delete.
  - done.
Qed.

Lemma consistent_deletes (l : list string) d :
  consistent d → consistent (foldl deleteOne d l).
Proof.
  revert d. induction l as [|cid l IH]; intros d H; simpl; [done|].
  by apply IH, consistent_deleteOne.
Qed.

Lemma consistent_addProcess d (ifp : container.Info) :
  consistent d →
  consistent
    (set_containerIDs (<[ContainerID ifp := ifp]>)
       (set_namespaces (<[PIDNamespace ifp := ifp]>)
          (set_fetchedPodsCache (delete (PIDNamespace ifp)) d))).
Proof.
  unfold consistent, namespaces_keyed, containerIDs_keyed,
    cache_within_namespaces in *.
  intros (Hns & Hcid & Hcache). simpl. split_and!.
  - by apply map_Forall_insert_2.
  - by apply map_Forall_insert_2.
  - intros ns pod [Hne Hpod]%lookup_delete_Some.
    rewrite lookup_insert_ne by done. by apply (Hcache ns pod).
Qed.

Lemma consistent_drop_cached d (ns : uint32) :
  consistent d → consistent (set_fetchedPodsCache (delete ns) d).
Proof.
  unfold consistent, namespaces_keyed, containerIDs_keyed,
    cache_within_namespaces in *.
  intros (Hns & Hcid & Hcache). simpl. split_and!; [done | done |].
  by apply map_Forall_delete.
Qed.

Lemma consistent_cache d (ns : uint32) (pod : ptr) :
  is_Some (namespaces d !! ns) → consistent d →
  consistent (set_fetchedPodsCache (<[ns := pod]>) d).
Proof.
  unfold consistent, namespaces_keyed, containerIDs_keyed,
    cache_within_namespaces in *.
  intros Hknown (Hns & Hcid & Hcache). simpl. split_and!; [done | done |].
  by apply map_Forall_insert_2.
Qed.

Section Processes.
Context {O Md : Type}.
Variable GetContainerPod : Md → string → option ptr.
Variable FetchPodOwnerInfo : Md → PodInfo.t O → O.
Variable InfoForPID : uint32 → container.Info + error.

Implicit Types (w : World O Md) (d : Database) (cid : string).

Local Abbreviation OwnerPodInfo' := (OwnerPodInfo GetContainerPod FetchPodOwnerInfo).

(** The four ways through [OwnerPodInfo]. *)
Lemma OwnerPodInfo_run w (ns : uint32) :
  OwnerPodInfo' ns w
  = match fetchedPodsCache (db w) !! ns with
    | Some pod =>
        ((Some pod, true), exec (call_FetchPodOwnerInfo FetchPodOwnerInfo pod) w)
    | None =>
        match namespaces (db w) !! ns with
        | None => ((None, false), w)
        | Some info =>
            let w1 :=
              exec (call_GetContainerPod GetContainerPod (ContainerID info)) w in
            match GetContainerPod (informer w) (ContainerID info) with
            | None => ((None, false), w1)
            | Some pod =>
                ((Some pod, true),
                 exec (call_FetchPodOwnerInfo FetchPodOwnerInfo pod)
                   (with_db (set_fetchedPodsCache (<[ns := pod]>)) w1))
            end
        end
    end.
Proof.
  unfold OwnerPodInfo, call_GetContainerPod, call_FetchPodOwnerInfo.
  go_unfold.
  destruct (fetchedPodsCache (db w) !! ns); simpl; [done|].
  destruct (namespaces (db w) !! ns) as [info|]; simpl; [|done].
  by destruct (GetContainerPod (informer w) (ContainerID info)).
Qed.

(** The world after an [AddProcess] that found the container. *)
Lemma AddProcess_run w (pid : uint32) ifp :
  InfoForPID pid = inl ifp →
  exec (AddProcess InfoForPID pid) w
  = mkWorld
      (set_containerIDs (<[ContainerID ifp := ifp]>)
         (set_namespaces (<[PIDNamespace ifp := ifp]>)
            (set_fetchedPodsCache (delete (PIDNamespace ifp)) (db w))))
      (informer w) (podObjs w) (svcObjs w) (nodeObjs w)
      (calls w ++ [CallInfoForPID pid]).
Proof.
  intros Hpid. unfold AddProcess, call_InfoForPID, addProcess, deletePodCache.
  go_unfold. by rewrite Hpid.
Qed.

(** X9: [AddProcess] of a process whose container the inspector finds:
    the container is indexed under its ID and under its PID namespace, the
    pod cached for that namespace is dropped, every other entry of these
    three maps and the three IP indexes are kept, and the inspector was
    called once. *)
Theorem AddProcess_indexes_container w (pid : uint32) ifp :
  InfoForPID pid = inl ifp →
  let w' := exec (AddProcess InfoForPID pid) w in
  containerIDs (db w') !! ContainerID ifp = Some ifp ∧
  namespaces (db w') !! PIDNamespace ifp = Some ifp ∧
  fetchedPodsCache (db w') !! PIDNamespace ifp = None ∧
  (∀ cid, cid ≠ ContainerID ifp →
     containerIDs (db w') !! cid = containerIDs (db w) !! cid) ∧
  (∀ ns : uint32, ns ≠ PIDNamespace ifp →
     namespaces (db w') !! ns = namespaces (db w) !! ns ∧
     fetchedPodsCache (db w') !! ns = fetchedPodsCache (db w) !! ns) ∧
  podsByIP (db w') = podsByIP (db w) ∧
  svcByIP (db w') = svcByIP (db w) ∧
  nodeByIP (db w') = nodeByIP (db w) ∧
  calls w' = calls w ++ [CallInfoForPID pid].
Proof.
  intros Hpid w'. subst w'. rewrite (AddProcess_run _ _ _ Hpid). simpl.
  split_and!; try done.
  - apply lookup_insert_eq.
  - apply lookup_insert_eq.
  - apply lookup_delete_eq.
  - intros cid Hne. by apply lookup_insert_ne.
  - intros ns Hne. split.
    + by apply lookup_insert_ne.
    + by apply lookup_delete_ne.
Qed.

(** X10: After [AddProcess], [OwnerPodInfo] of the namespace of the process
    never answers from the pod cache: it answers what the informer finds
    for the container that was just added, whatever pod was cached for
    that namespace before. *)
Theorem AddProcess_then_OwnerPodInfo w (pid : uint32) ifp :
  InfoForPID pid = inl ifp →
  result (AddProcess InfoForPID pid >> OwnerPodInfo' (PIDNamespace ifp)) w
  = match GetContainerPod (informer w) (ContainerID ifp) with
    | Some pod => (Some pod, true)
    | None => (None, false)
    end.
Proof.
  intros Hpid. rewrite result_then. unfold result.
  rewrite OwnerPodInfo_run, (AddProcess_run _ _ _ Hpid). simpl.
  rewrite lookup_delete_eq, lookup_insert_eq. simpl.
  by destruct (GetContainerPod (informer w) (ContainerID ifp)).
Qed.

(** X11: After [OnDeletion] of a batch, [OwnerPodInfo] of the namespace of any
    container of the batch that was indexed answers (nil, false) and
    leaves the world as it is: the informer is not asked. *)
Theorem OnDeletion_then_OwnerPodInfo w (l : list string) cid info :
  cid ∈ l →
  containerIDs (db w) !! cid = Some info →
  let w' := exec (OnDeletion l) w in
  OwnerPodInfo' (PIDNamespace info) w' = ((None, false), w').
Proof.
  intros Hin Hcid w'. rewrite OwnerPodInfo_run.
  subst w'. rewrite exec_OnDeletion. simpl.
  destruct (deletes_unindex_namespace l (db w) cid info Hin Hcid) as [-> ->].
  done.
Qed.

(** X12: Once [OwnerPodInfo] has answered a pod for a namespace, it answers the
    same pod for as long as the maps of the database stay as they are,
    whatever the informer has become, and asks the informer for nothing
    but the owner of that pod. *)
Theorem OwnerPodInfo_answer_is_cached w (ns : uint32) (pod : ptr) :
  result (OwnerPodInfo' ns) w = (Some pod, true) →
  ∀ md pods svcs nodes log,
    let w1 := exec (OwnerPodInfo' ns) w in
    let w2 := mkWorld (db w1) md pods svcs nodes log in
    fetchedPodsCache (db w1) !! ns = Some pod ∧
    result (OwnerPodInfo' ns) w2 = (Some pod, true) ∧
    calls (exec (OwnerPodInfo' ns) w2) = log ++ [CallFetchPodOwnerInfo pod].
Proof.
  intros Hr md pods svcs nodes log w1 w2.
  assert (Hcached : fetchedPodsCache (db w1) !! ns = Some pod).
  { subst w1. unfold result, exec in *. rewrite OwnerPodInfo_run in *.
    destruct (fetchedPodsCache (db w) !! ns) as [p|] eqn:Hc; simpl in *.
    { by injection Hr as ->. }
    destruct (namespaces (db w) !! ns) as [info|]; simpl in *; [|done].
    destruct (GetContainerPod (informer w) (ContainerID info)) as [p|];
      simpl in *; [|done].
    injection Hr as ->. apply lookup_insert_eq. }
  split; [done|].
  unfold result, exec. rewrite OwnerPodInfo_run. subst w2. simpl.
  by rewrite Hcached.
Qed.

(** X13: When [OwnerPodInfo] answers (nil, false), nothing was cached and
    [FetchPodOwnerInfo] was not called: the maps and the pod objects are
    as before. For a namespace that the namespace index does not have the
    informer is not asked at all; otherwise it was asked once, for the pod
    of the container. *)
Theorem OwnerPodInfo_miss_is_not_cached w (ns : uint32) :
  result (OwnerPodInfo' ns) w = (None, false) →
  let w' := exec (OwnerPodInfo' ns) w in
  db w' = db w ∧ podObjs w' = podObjs w ∧ informer w' = informer w ∧
  (namespaces (db w) !! ns = None → w' = w) ∧
  (∀ info, namespaces (db w) !! ns = Some info →
     calls w' = calls w ++ [CallGetContainerPod (ContainerID info)]).
Proof.
  unfold result, exec. rewrite OwnerPodInfo_run.
  destruct (fetchedPodsCache (db w) !! ns); simpl; [done|].
  destruct (namespaces (db w) !! ns) as [info|]; simpl.
  - destruct (GetContainerPod (informer w) (ContainerID info)); simpl; [done|].
    intros _. split_and!; try done. by intros ? [= ->].
  - intros _. split_and!; done.
Qed.

(** X14: [OnDeletion] only removes. A container ID of the batch is dropped, the
    others are kept; a PID namespace loses its entries in the namespace
    index and in the pod cache when a container of the batch was indexed
    with it, and keeps them otherwise; nothing is added, and the IP
    indexes, the informer, its objects and the call log stay as before. *)
Theorem OnDeletion_only_removes w (l : list string) :
  let w' := exec (OnDeletion l) w in
  (∀ cid, containerIDs (db w') !! cid
          = if decide (cid ∈ l) then None else containerIDs (db w) !! cid) ∧
  (∀ cid info, cid ∈ l → containerIDs (db w) !! cid = Some info →
     namespaces (db w') !! PIDNamespace info = None ∧
     fetchedPodsCache (db w') !! PIDNamespace info = None) ∧
  (∀ ns : uint32,
     (∀ cid info, cid ∈ l → containerIDs (db w) !! cid = Some info →
                  PIDNamespace info ≠ ns) →
     namespaces (db w') !! ns = namespaces (db w) !! ns ∧
     fetchedPodsCache (db w') !! ns = fetchedPodsCache (db w) !! ns) ∧
  namespaces (db w') ⊆ namespaces (db w) ∧
  fetchedPodsCache (db w') ⊆ fetchedPodsCache (db w) ∧
  podsByIP (db w') = podsByIP (db w) ∧
  svcByIP (db w') = svcByIP (db w) ∧
  nodeByIP (db w') = nodeByIP (db w) ∧
  informer w' = informer w ∧ podObjs w' = podObjs w ∧
  svcObjs w' = svcObjs w ∧ nodeObjs w' = nodeObjs w ∧ calls w' = calls w.
Proof.
  intros w'. subst w'. rewrite exec_OnDeletion. simpl.
  destruct (deletes_ip_indexes l (db w)) as (Hpods & Hsvc & Hnodes).
  split_and!; try done.
  - intros cid. apply deletes_containerIDs.
  - intros cid info. apply deletes_unindex_namespace.
  - intros ns. apply deletes_keep_namespace.
  - apply deletes_namespaces.
  - apply deletes_fetchedPodsCache.
Qed.

(** X15: A batch of [OnDeletion] can be split in two calls, and the order of
    the container IDs in it does not matter. *)
Theorem OnDeletion_batches w (l1 l2 : list string) :
  exec (OnDeletion (l1 ++ l2)) w = exec (OnDeletion l2) (exec (OnDeletion l1) w) ∧
  (l1 ≡ₚ l2 → exec (OnDeletion l1) w = exec (OnDeletion l2) w).
Proof.
  rewrite !exec_OnDeletion. unfold with_db. simpl. split.
  - by rewrite foldl_app.
  - intros Hperm. by rewrite (deletes_permutation l1 l2).
Qed.

(** X17: When two processes of one container were added under two PID
    namespaces, [OnDeletion] of the container drops the container and the
    namespace of the process added last; the namespace of the first
    process stays in the namespace index, so that [OwnerPodInfo] still asks
    the informer for the pod of the deleted container. *)
Theorem OnDeletion_keeps_earlier_namespace w (pid1 pid2 : uint32) a b :
  InfoForPID pid1 = inl a →
  InfoForPID pid2 = inl b →
  ContainerID a = ContainerID b →
  PIDNamespace a ≠ PIDNamespace b →
  let w' := exec (AddProcess InfoForPID pid1 >> AddProcess InfoForPID pid2 >>
                  OnDeletion [ContainerID a]) w in
  containerIDs (db w') !! ContainerID a = None ∧
  namespaces (db w') !! PIDNamespace b = None ∧
  namespaces (db w') !! PIDNamespace a = Some a ∧
  result (OwnerPodInfo' (PIDNamespace a)) w'
  = match GetContainerPod (informer w) (ContainerID a) with
    | Some pod => (Some pod, true)
    | None => (None, false)
    end.
Proof.
  intros Hpid1 Hpid2 Hcid Hns w'.
  assert (Hdb : db w' =
    set_namespaces (delete (PIDNamespace b))
      (set_fetchedPodsCache (delete (PIDNamespace b))
         (set_containerIDs (delete (ContainerID a))
            (set_containerIDs (<[ContainerID b := b]>)
               (set_namespaces (<[PIDNamespace b := b]>)
                  (set_fetchedPodsCache (delete (PIDNamespace b))
                     (set_containerIDs (<[ContainerID a := a]>)
                        (set_namespaces (<[PIDNamespace a := a]>)
                           (set_fetchedPodsCache (delete (PIDNamespace a))
                              (db w)))))))))
    ∧ informer w' = informer w).
  { subst w'. rewrite !exec_then, exec_OnDeletion.
    rewrite (AddProcess_run _ _ _ Hpid2), (AddProcess_run _ _ _ Hpid1). simpl.
    unfold deleteOne. simpl. rewrite Hcid, lookup_insert_eq. done. }
  destruct Hdb as [Hdb Hinf].
  assert (Hgone : containerIDs (db w') !! ContainerID a = None).
  { rewrite Hdb. simpl. apply lookup_delete_eq. }
  assert (Hb : namespaces (db w') !! PIDNamespace b = None).
  { rewrite Hdb. simpl. apply lookup_delete_eq. }
  assert (Ha : namespaces (db w') !! PIDNamespace a = Some a).
  { rewrite Hdb. simpl.
    rewrite lookup_delete_ne, lookup_insert_ne by done.
    apply lookup_insert_eq. }
  assert (Hc : fetchedPodsCache (db w') !! PIDNamespace a = None).
  { rewrite Hdb. simpl.
    rewrite !lookup_delete_ne by done. apply lookup_delete_eq. }
  split_and!; try done.
  unfold result. rewrite OwnerPodInfo_run, Hc, Ha, Hinf. simpl.
  by destruct (GetContainerPod (informer w) (ContainerID a)).
Qed.

(** *** The invariants of the database *)

Lemma consistent_handle (e : Event) w :
  consistent (db w) →
  consistent (db (exec (handle GetContainerPod FetchPodOwnerInfo InfoForPID e) w)).
Proof.
  intros H. destruct e; simpl handle.
  - rewrite exec_OnDeletion. simpl. by apply consistent_deletes.
  - destruct (InfoForPID pid) as [ifp|err] eqn:Hpid.
    + rewrite (AddProcess_run _ _ _ Hpid). simpl. by apply consistent_addProcess.
    + unfold AddProcess, call_InfoForPID. go_unfold. by rewrite Hpid.
  - by apply consistent_addProcess.
  - by apply consistent_drop_cached.
  - rewrite exec_then. unfold exec at 2. rewrite OwnerPodInfo_run.
    destruct (fetchedPodsCache (db w) !! pidNamespace); simpl; [done|].
    destruct (namespaces (db w) !! pidNamespace) as [info|] eqn:Hns;
      simpl; [|done].
    destruct (GetContainerPod (informer w) (ContainerID info)); simpl; [|done].
    apply consistent_cache; [by rewrite Hns | done].
  - unfold PodEventHandler_AddFunc. by rewrite run_UpdateNewPodsByIPIndex.
  - unfold PodEventHandler_UpdateFunc.
    by rewrite exec_then, run_UpdateNewPodsByIPIndex,
      run_UpdateDeletedPodsByIPIndex.
  - unfold PodEventHandler_DeleteFunc.
    by rewrite run_UpdateDeletedPodsByIPIndex.
  - unfold ServiceEventHandler_AddFunc.
    by rewrite run_UpdateNewServicesByIPIndex.
  - unfold ServiceEventHandler_UpdateFunc.
    by rewrite exec_then, run_UpdateNewServicesByIPIndex,
      run_UpdateDeletedServicesByIPIndex.
  - unfold ServiceEventHandler_DeleteFunc.
    by rewrite run_UpdateDeletedServicesByIPIndex.
  - unfold NodeEventHandler_AddFunc. by rewrite run_UpdateNewNodesByIPIndex.
  - unfold NodeEventHandler_UpdateFunc.
    by rewrite exec_then, run_UpdateNewNodesByIPIndex,
      run_UpdateDeletedNodesByIPIndex.
  - unfold NodeEventHandler_DeleteFunc.
    by rewrite run_UpdateDeletedNodesByIPIndex.
Qed.

(** X18: In every world that a database reaches from [CreateDatabase], each
    entry of the container-ID index is under the ID of its container, each
    entry of the namespace index is under the PID namespace of its
    container, and a pod is cached only for a PID namespace that the
    namespace index has. *)
Theorem reachable_consistent w :
  reachable GetContainerPod FetchPodOwnerInfo InfoForPID w →
  namespaces_keyed (db w) ∧ containerIDs_keyed (db w) ∧
  cache_within_namespaces (db w).
Proof.
  change (reachable GetContainerPod FetchPodOwnerInfo InfoForPID w →
          consistent (db w)).
  induction 1 as [md pods svcs nodes|e w _ IH|md pods svcs nodes w _ IH].
  - apply consistent_CreateDatabase.
  - by apply consistent_handle.
  - done.
Qed.

End Processes.

Section Inspector.
Context {O Md : Type}.


End Inspector.

(** ** The properties on the small cluster *)

Import Scenario.

Local Abbreviation Owner_of := (OwnerPodInfo GetContainerPod FetchPodOwnerInfo).

(** When two processes of one container were added under two PID
    namespaces, [OnDeletion] of the container removes the namespace entry
    of the process added last; the entry of the other namespace stays. *)
Lemma OnDeletion_keeps_older_namespace :
  namespaces
    (db (exec (AddProcess InfoForPID 100%N >> AddProcess InfoForPID 102%N >>
               OnDeletion ["c1"]) w0))
  = {[7%N := container.mkInfo "c1" 7]}.
Proof. by vm_compute. Qed.

(** 10.0.0.5 is an IP of the service and of the pod: the service answers.
    10.0.0.6 is an IP of the pod only, 10.0.0.1 of the node only, and
    10.0.0.2 of nothing. *)
Lemma C1_lookup_precedence_witness :
  (svcByIP (db w_ips) !! "10.0.0.5" = Some 2%positive ∧
   podsByIP (db w_ips) !! "10.0.0.5" = Some 1%positive ∧
   result (HostNameForIP "10.0.0.5") w_ips = "svc-a" ∧
   result (ServiceNameNamespaceForIP ServiceName "10.0.0.5") w_ips
     = ("svc-a", "prod")) ∧
  (svcByIP (db w_ips) !! "10.0.0.6" = None ∧
   podsByIP (db w_ips) !! "10.0.0.6" = Some 1%positive ∧
   result (HostNameForIP "10.0.0.6") w_ips = "web-1" ∧
   result (ServiceNameNamespaceForIP ServiceName "10.0.0.6") w_ips
     = ("web-1", "prod")) ∧
  (nodeByIP (db w_ips) !! "10.0.0.1" = Some 3%positive ∧
   result (HostNameForIP "10.0.0.1") w_ips = "node-1" ∧
   result (ServiceNameNamespaceForIP ServiceName "10.0.0.1") w_ips
     = ("node-1", "")) ∧
  (result (HostNameForIP "10.0.0.2") w_ips = "" ∧
   result (ServiceNameNamespaceForIP ServiceName "10.0.0.2") w_ips = ("", "")).
Proof.
  split; [|split; [|split]].
  - destruct (C1_lookup_precedence ServiceName w_ips "10.0.0.5")
      as (_ & Hboth & _).
    destruct (Hboth 2%positive 1%positive) as [Hhost Hsns];
      [reflexivity | reflexivity |].
    split_and!; [reflexivity | reflexivity | exact Hhost | exact Hsns].
  - destruct (C1_lookup_precedence ServiceName w_ips "10.0.0.6")
      as (_ & _ & Hpod & _).
    destruct (Hpod 1%positive) as [Hhost Hsns];
      [reflexivity | reflexivity |].
    split_and!; [reflexivity | reflexivity | exact Hhost | exact Hsns].
  - destruct (C1_lookup_precedence ServiceName w_ips "10.0.0.1")
      as (_ & _ & _ & Hnode & _).
    destruct (Hnode 3%positive) as [Hhost Hsns];
      [reflexivity | reflexivity | reflexivity |].
    split_and!; [reflexivity | exact Hhost | exact Hsns].
  - destruct (C1_lookup_precedence ServiceName w_ips "10.0.0.2")
      as (_ & _ & _ & _ & Hnone).
    apply Hnone; reflexivity.
Defined.

(** The container c1 of the namespace 7 is deleted after its pod was cached. *)
Lemma C2_OnDeletion_forgets_witness :
  namespaces_keyed (db w_cached) ∧
  containerIDs (db w_cached) !! "c1" = Some (container.mkInfo "c1" 7) ∧
  containerIDs (db (exec (OnDeletion ["c1"]) w_cached)) !! "c1" = None ∧
  (∀ ns : uint32, namespaces (db (exec (OnDeletion ["c1"]) w_cached)) !! ns
                  ≠ Some (container.mkInfo "c1" 7)) ∧
  fetchedPodsCache (db (exec (OnDeletion ["c1"]) w_cached)) !! 7%N = None.
Proof.
  assert (Hkeyed : namespaces_keyed (db w_cached)).
  { apply (bool_decide_unpack _). vm_compute. exact I. }
  destruct (C2_OnDeletion_forgets w_cached "c1" Hkeyed) as [Hgone Hinfo].
  destruct (Hinfo (container.mkInfo "c1" 7)) as [Hns Hcache]; [reflexivity|].
  split_and!;
    [exact Hkeyed | reflexivity | exact Hgone | exact Hns | exact Hcache].
Defined.

(** The namespace 8 is unknown; the namespace 7 resolves to the pod 1,
    first through the informer and then from the cache. *)
Lemma C3_OwnerPodInfo_result_witness :
  (fetchedPodsCache (db w_c1) !! 8%N = None ∧
   namespaces (db w_c1) !! 8%N = None ∧
   result (Owner_of 8%N) w_c1 = (None, false)) ∧
  (fetchedPodsCache (db w_c1) !! 7%N = None ∧
   namespaces (db w_c1) !! 7%N = Some (container.mkInfo "c1" 7) ∧
   GetContainerPod (informer w_c1) "c1" = Some 1%positive ∧
   result (Owner_of 7%N) w_c1 = (Some 1%positive, true) ∧
   fetchedPodsCache (db (exec (Owner_of 7%N) w_c1)) !! 7%N = Some 1%positive) ∧
  (fetchedPodsCache (db w_cached) !! 7%N = Some 1%positive ∧
   result (Owner_of 7%N) w_cached = (Some 1%positive, true)).
Proof.
  split; [|split].
  - destruct (C3_OwnerPodInfo_result GetContainerPod FetchPodOwnerInfo w_c1 8%N)
      as ([_ Hmiss] & _ & _).
    split_and!; [reflexivity | reflexivity |].
    apply Hmiss. split; [reflexivity | left; reflexivity].
  - destruct (C3_OwnerPodInfo_result GetContainerPod FetchPodOwnerInfo w_c1 7%N)
      as (_ & _ & Hresolved).
    destruct (Hresolved (container.mkInfo "c1" 7) 1%positive)
      as (Hr & _ & Hcache); [reflexivity | reflexivity | reflexivity |].
    split_and!;
      [reflexivity | reflexivity | reflexivity | exact Hr | exact Hcache].
  - destruct (C3_OwnerPodInfo_result GetContainerPod FetchPodOwnerInfo
                w_cached 7%N) as (_ & Hhit & _).
    split; [reflexivity | apply Hhit; reflexivity].
Defined.

(** The pod 1 has the IPs 10.0.0.5 and 10.0.0.6. *)
Lemma C4_pod_index_round_trip_witness :
  0 < length (IPs (PodInfo.IPInfo (podObjs w0 1%positive))) ∧
  "10.0.0.6" ∈ IPs (PodInfo.IPInfo (podObjs w0 1%positive)) ∧
  result (PodInfoForIP "10.0.0.6") (exec (UpdateNewPodsByIPIndex 1%positive) w0)
    = Some 1%positive ∧
  result (PodInfoForIP "10.0.0.6")
    (exec (UpdateDeletedPodsByIPIndex 1%positive)
       (exec (UpdateNewPodsByIPIndex 1%positive) w0)) = None.
Proof.
  assert (Hlen : 0 < length (IPs (PodInfo.IPInfo (podObjs w0 1%positive)))).
  { simpl. lia. }
  assert (Hin : "10.0.0.6" ∈ IPs (PodInfo.IPInfo (podObjs w0 1%positive))).
  { simpl. right. left. }
  destruct (C4_pod_index_round_trip w0 1%positive Hlen "10.0.0.6" Hin)
    as (Hnew & _ & Hdel).
  split_and!; [exact Hlen | exact Hin | exact Hnew | exact Hdel].
Defined.

(** No container c9 was ever added. *)
Lemma C5_OnDeletion_idempotent_witness :
  exec (OnDeletion ["c1"; "c9"]) (exec (OnDeletion ["c1"; "c9"]) w_cached)
    = exec (OnDeletion ["c1"; "c9"]) w_cached ∧
  containerIDs (db w_cached) !! "c9" = None ∧
  exec (OnDeletion ["c9"]) w_cached = w_cached.
Proof.
  destruct (@C5_OnDeletion_idempotent Owner Metadata) as [Htwice Hunknown].
  split_and!.
  - apply Htwice.
  - reflexivity.
  - apply Hunknown. reflexivity.
Defined.

(** There is no process 5. *)
Lemma C6_AddProcess_error_keeps_state_witness :
  InfoForPID 5%N = inr "no such process" ∧
  db (exec (AddProcess InfoForPID 5%N) w_cached) = db w_cached.
Proof.
  split; [reflexivity|].
  apply (C6_AddProcess_error_keeps_state InfoForPID w_cached 5%N
           "no such process").
  reflexivity.
Defined.

(** The cached pod of the namespace 7 is dropped; the namespace index
    still maps 7 to the container c1. *)
Lemma C7_CleanProcessCaches_frame_witness :
  8%N ≠ 7%N ∧
  fetchedPodsCache (db (exec (CleanProcessCaches 7%N) w_cached)) !! 8%N
    = fetchedPodsCache (db w_cached) !! 8%N ∧
  fetchedPodsCache (db (exec (CleanProcessCaches 7%N) w_cached))
    = delete 7%N (fetchedPodsCache (db w_cached)) ∧
  namespaces (db (exec (CleanProcessCaches 7%N) w_cached))
    = namespaces (db w_cached).
Proof.
  assert (Hne : 8%N ≠ 7%N) by discriminate.
  destruct (C7_CleanProcessCaches_frame w_cached 7%N)
    as (Hcache & Hothers & Hns & _).
  split_and!; [exact Hne | apply Hothers, Hne | exact Hcache | exact Hns].
Defined.

(** Both the first lookup of the namespace 7 and the second, which is
    served from the cache, end with [FetchPodOwnerInfo] on the pod 1. *)
Lemma C8_OwnerPodInfo_refreshes_owner_witness :
  (result (Owner_of 7%N) w_c1 = (Some 1%positive, true) ∧
   last (calls (exec (Owner_of 7%N) w_c1))
     = Some (CallFetchPodOwnerInfo 1%positive)) ∧
  (result (Owner_of 7%N) w_cached = (Some 1%positive, true) ∧
   is_Some (fetchedPodsCache (db w_cached) !! 7%N) ∧
   calls (exec (Owner_of 7%N) w_cached)
     = calls w_cached ++ [CallFetchPodOwnerInfo 1%positive]).
Proof.
  split.
  - assert (Hr : result (Owner_of 7%N) w_c1 = (Some 1%positive, true))
      by reflexivity.
    destruct (C8_OwnerPodInfo_refreshes_owner GetContainerPod
                FetchPodOwnerInfo w_c1 7%N 1%positive Hr)
      as (Hlast & _).
    split; [exact Hr | exact Hlast].
  - assert (Hr : result (Owner_of 7%N) w_cached = (Some 1%positive, true))
      by reflexivity.
    assert (Hhit : is_Some (fetchedPodsCache (db w_cached) !! 7%N)).
    { exists 1%positive. reflexivity. }
    destruct (C8_OwnerPodInfo_refreshes_owner GetContainerPod
                FetchPodOwnerInfo w_cached 7%N 1%positive Hr)
      as (_ & Hcalls & _).
    split_and!; [exact Hr | exact Hhit | apply Hcalls, Hhit].
Defined.

(** The lookup of the namespace 7 fills the pod cache. *)
Lemma C9_lookups_read_only_witness :
  exec (HostNameForIP "10.0.0.5") w_ips = w_ips ∧
  fetchedPodsCache (db w_c1) !! 7%N = None ∧
  namespaces (db w_c1) !! 7%N = Some (container.mkInfo "c1" 7) ∧
  GetContainerPod (informer w_c1) "c1" = Some 1%positive ∧
  db (exec (Owner_of 7%N) w_c1) ≠ db w_c1.
Proof.
  split.
  - apply (C9_lookups_read_only ServiceName GetContainerPod
             FetchPodOwnerInfo w_ips "10.0.0.5").
  - destruct (C9_lookups_read_only ServiceName GetContainerPod
                FetchPodOwnerInfo w_c1 "10.0.0.5")
      as (_ & _ & _ & _ & _ & _ & Hwrites).
    split_and!; [reflexivity | reflexivity | reflexivity |].
    apply (Hwrites 7%N (container.mkInfo "c1" 7) 1%positive); reflexivity.
Defined.


(** ** More properties on the small cluster *)

(** The objects of [w_headless] have no IPs. *)
Lemma ip_updates_without_IPs_witness :
  IPs (PodInfo.IPInfo (podObjs w_headless 1%positive)) = [] ∧
  exec (UpdateNewPodsByIPIndex 1%positive) w_headless = w_headless ∧
  exec (UpdateDeletedPodsByIPIndex 1%positive) w_headless = w_headless ∧
  exec (UpdateDeletedServicesByIPIndex 1%positive) w_headless = w_headless ∧
  exec (UpdateNewNodesByIPIndex 1%positive) w_headless = w_headless.
Proof.
  destruct (ip_updates_without_IPs w_headless 1%positive)
    as (Hpod & Hsvc & Hnode).
  destruct (Hpod eq_refl) as [Hnew Hdel].
  destruct (Hsvc eq_refl) as [_ Hsdel].
  destruct (Hnode eq_refl) as [Hnnew _].
  split_and!; [reflexivity | exact Hnew | exact Hdel | exact Hsdel | exact Hnnew].
Defined.

(** The service 2 has the IP 10.0.0.9, which no pod and no node has. *)
Lemma service_index_round_trip_witness :
  "10.0.0.9" ∈ IPs (ServiceInfo.IPInfo (svcObjs w0 2%positive)) ∧
  result (HostNameForIP "10.0.0.9")
    (exec (UpdateNewServicesByIPIndex 2%positive) w0) = "svc-a" ∧
  result (ServiceInfoForIP "10.0.0.9")
    (exec (UpdateDeletedServicesByIPIndex 2%positive)
       (exec (UpdateNewServicesByIPIndex 2%positive) w0)) = None ∧
  result (HostNameForIP "10.0.0.9")
    (exec (UpdateDeletedServicesByIPIndex 2%positive)
       (exec (UpdateNewServicesByIPIndex 2%positive) w0)) = "".
Proof.
  assert (Hin : "10.0.0.9" ∈ IPs (ServiceInfo.IPInfo (svcObjs w0 2%positive))).
  { simpl. left. }
  destruct (service_index_round_trip w0 2%positive "10.0.0.9" Hin)
    as (_ & Hhost & Hgone & _ & _ & Hempty).
  split_and!; [exact Hin | exact Hhost | exact Hgone |].
  apply Hempty; reflexivity.
Defined.

(** The node 3 has the IP 10.0.0.1. *)
Lemma node_index_round_trip_witness :
  "10.0.0.1" ∈ IPs (NodeInfo.IPInfo (nodeObjs w0 3%positive)) ∧
  result (NodeInfoForIP "10.0.0.1")
    (exec (UpdateNewNodesByIPIndex 3%positive) w0) = Some 3%positive ∧
  result (HostNameForIP "10.0.0.1")
    (exec (UpdateNewNodesByIPIndex 3%positive) w0) = "node-1" ∧
  result (NodeInfoForIP "10.0.0.1")
    (exec (UpdateDeletedNodesByIPIndex 3%positive)
       (exec (UpdateNewNodesByIPIndex 3%positive) w0)) = None.
Proof.
  assert (Hin : "10.0.0.1" ∈ IPs (NodeInfo.IPInfo (nodeObjs w0 3%positive))).
  { simpl. left. }
  destruct (node_index_round_trip w0 3%positive "10.0.0.1" Hin)
    as (Hnode & Hhost & Hgone & _).
  split_and!; [exact Hin | exact Hnode | | exact Hgone].
  apply Hhost; reflexivity.
Defined.

(** The pods 1 and 2 both have the IP 10.0.0.5. *)
Lemma pod_delete_unmaps_shared_IP_witness :
  "10.0.0.5" ∈ IPs (PodInfo.IPInfo (podObjs w0 1%positive)) ∧
  "10.0.0.5" ∈ IPs (PodInfo.IPInfo (podObjs w0 2%positive)) ∧
  result (UpdateNewPodsByIPIndex 1%positive >> UpdateNewPodsByIPIndex 2%positive >>
          PodInfoForIP "10.0.0.5") w0 = Some 2%positive ∧
  result (UpdateNewPodsByIPIndex 1%positive >> UpdateNewPodsByIPIndex 2%positive >>
          UpdateDeletedPodsByIPIndex 1%positive >> PodInfoForIP "10.0.0.5") w0
    = None.
Proof.
  assert (H1 : "10.0.0.5" ∈ IPs (PodInfo.IPInfo (podObjs w0 1%positive))).
  { simpl. left. }
  assert (H2 : "10.0.0.5" ∈ IPs (PodInfo.IPInfo (podObjs w0 2%positive))).
  { simpl. left. }
  destruct (pod_delete_unmaps_shared_IP w0 1%positive 2%positive "10.0.0.5" H1 H2)
    as [Hb Hnone].
  split_and!; [exact H1 | exact H2 | exact Hb | exact Hnone].
Defined.

(** The process 100 runs in the container c1, in the namespace 7. *)
Lemma AddProcess_indexes_container_witness :
  InfoForPID 100%N = inl (container.mkInfo "c1" 7) ∧
  containerIDs (db (exec (AddProcess InfoForPID 100%N) w_ips)) !! "c1"
    = Some (container.mkInfo "c1" 7) ∧
  namespaces (db (exec (AddProcess InfoForPID 100%N) w_ips)) !! 7%N
    = Some (container.mkInfo "c1" 7) ∧
  podsByIP (db (exec (AddProcess InfoForPID 100%N) w_ips)) = podsByIP (db w_ips).
Proof.
  assert (Hpid : InfoForPID 100%N = inl (container.mkInfo "c1" 7))
    by reflexivity.
  destruct (AddProcess_indexes_container InfoForPID w_ips 100%N _ Hpid)
    as (Hcid & Hns & _ & _ & _ & Hpods & _).
  split_and!; [exact Hpid | exact Hcid | exact Hns | exact Hpods].
Defined.

(** The process 100 is added again after its pod was cached, and the
    informer has lost the pod of c1. *)
Lemma AddProcess_then_OwnerPodInfo_witness :
  InfoForPID 100%N = inl (container.mkInfo "c1" 7) ∧
  result (AddProcess InfoForPID 100%N >> Owner_of 7%N)
    (mkWorld (db w_cached) ∅ (podObjs w_cached) (svcObjs w_cached)
             (nodeObjs w_cached) (calls w_cached)) = (None, false).
Proof.
  assert (Hpid : InfoForPID 100%N = inl (container.mkInfo "c1" 7))
    by reflexivity.
  split; [exact Hpid|].
  exact (AddProcess_then_OwnerPodInfo GetContainerPod FetchPodOwnerInfo
           InfoForPID
           (mkWorld (db w_cached) ∅ (podObjs w_cached) (svcObjs w_cached)
                    (nodeObjs w_cached) (calls w_cached))
           100%N (container.mkInfo "c1" 7) Hpid).
Defined.

(** The container c1 is deleted in a batch with an unknown container. *)
Lemma OnDeletion_then_OwnerPodInfo_witness :
  "c1" ∈ ["c9"; "c1"] ∧
  containerIDs (db w_cached) !! "c1" = Some (container.mkInfo "c1" 7) ∧
  Owner_of 7%N (exec (OnDeletion ["c9"; "c1"]) w_cached)
    = ((None, false), exec (OnDeletion ["c9"; "c1"]) w_cached).
Proof.
  assert (Hin : "c1" ∈ ["c9"; "c1"]) by (right; left).
  split_and!; [exact Hin | reflexivity |].
  apply (OnDeletion_then_OwnerPodInfo GetContainerPod FetchPodOwnerInfo
           w_cached ["c9"; "c1"] "c1" (container.mkInfo "c1" 7) Hin).
  reflexivity.
Defined.

(** The pod 1 is still answered when the informer has lost it. *)
Lemma OwnerPodInfo_answer_is_cached_witness :
  result (Owner_of 7%N) w_c1 = (Some 1%positive, true) ∧
  result (Owner_of 7%N)
    (mkWorld (db (exec (Owner_of 7%N) w_c1)) ∅ (λ _, web1) (λ _, svc_a)
             (λ _, node1) []) = (Some 1%positive, true) ∧
  calls (exec (Owner_of 7%N)
    (mkWorld (db (exec (Owner_of 7%N) w_c1)) ∅ (λ _, web1) (λ _, svc_a)
             (λ _, node1) [])) = [] ++ [CallFetchPodOwnerInfo 1%positive].
Proof.
  assert (Hr : result (Owner_of 7%N) w_c1 = (Some 1%positive, true))
    by reflexivity.
  destruct (OwnerPodInfo_answer_is_cached GetContainerPod FetchPodOwnerInfo
              w_c1 7%N 1%positive Hr ∅ (λ _, web1) (λ _, svc_a) (λ _, node1) [])
    as (_ & Hagain & Hcalls).
  split_and!; [exact Hr | exact Hagain | exact Hcalls].
Defined.

(** The namespace 8 is unknown. *)
Lemma OwnerPodInfo_miss_is_not_cached_witness :
  result (Owner_of 8%N) w_c1 = (None, false) ∧
  namespaces (db w_c1) !! 8%N = None ∧
  exec (Owner_of 8%N) w_c1 = w_c1.
Proof.
  assert (Hr : result (Owner_of 8%N) w_c1 = (None, false)) by reflexivity.
  destruct (OwnerPodInfo_miss_is_not_cached GetContainerPod FetchPodOwnerInfo
              w_c1 8%N Hr) as (_ & _ & _ & Hsame & _).
  split_and!; [exact Hr | reflexivity | apply Hsame; reflexivity].
Defined.

(** The container c1 of the namespace 7 is deleted; the namespace 8 is
    the namespace of no container. *)
Lemma OnDeletion_only_removes_witness :
  "c1" ∈ ["c1"] ∧
  containerIDs (db w_cached) !! "c1" = Some (container.mkInfo "c1" 7) ∧
  namespaces (db (exec (OnDeletion ["c1"]) w_cached)) !! 7%N = None ∧
  fetchedPodsCache (db (exec (OnDeletion ["c1"]) w_cached)) !! 7%N = None ∧
  namespaces (db (exec (OnDeletion ["c1"]) w_cached)) !! 8%N
    = namespaces (db w_cached) !! 8%N.
Proof.
  assert (Hin : "c1" ∈ ["c1"]) by left.
  destruct (OnDeletion_only_removes w_cached ["c1"])
    as (_ & Hdrop & Hkeep & _).
  destruct (Hdrop "c1" (container.mkInfo "c1" 7) Hin) as [Hns Hcache];
    [reflexivity|].
  destruct (Hkeep 8%N) as [Hns8 _].
  { intros cid info [->|[]%elem_of_nil]%elem_of_cons [= <-]. discriminate. }
  split_and!; [exact Hin | reflexivity | exact Hns | exact Hcache | exact Hns8].
Defined.

(** The batch c1, c9 in its two orders. *)
Lemma OnDeletion_batches_witness :
  ["c1"; "c9"] ≡ₚ ["c9"; "c1"] ∧
  exec (OnDeletion ["c1"; "c9"]) w_cached = exec (OnDeletion ["c9"; "c1"]) w_cached.
Proof.
  assert (Hperm : ["c1"; "c9"] ≡ₚ ["c9"; "c1"]) by apply perm_swap.
  destruct (OnDeletion_batches w_cached ["c1"; "c9"] ["c9"; "c1"])
    as [_ Horder].
  split; [exact Hperm | exact (Horder Hperm)].
Defined.

(** The processes 100 and 102 run in the container c1, in the namespaces
    7 and 8. *)
Lemma OnDeletion_keeps_earlier_namespace_witness :
  InfoForPID 100%N = inl (container.mkInfo "c1" 7) ∧
  InfoForPID 102%N = inl (container.mkInfo "c1" 8) ∧
  namespaces
    (db (exec (AddProcess InfoForPID 100%N >> AddProcess InfoForPID 102%N >>
               OnDeletion ["c1"]) w0)) !! 7%N
    = Some (container.mkInfo "c1" 7) ∧
  result (Owner_of 7%N)
    (exec (AddProcess InfoForPID 100%N >> AddProcess InfoForPID 102%N >>
           OnDeletion ["c1"]) w0) = (Some 1%positive, true).
Proof.
  destruct (OnDeletion_keeps_earlier_namespace GetContainerPod
              FetchPodOwnerInfo InfoForPID w0 100%N 102%N
              (container.mkInfo "c1" 7) (container.mkInfo "c1" 8))
    as (_ & _ & Hstays & Hasks);
    [reflexivity | reflexivity | reflexivity | discriminate |].
  split_and!; [reflexivity | reflexivity | exact Hstays | exact Hasks].
Defined.

(** The world in which the process 100 was added is reached by one event. *)
Lemma reachable_consistent_witness :
  reachable GetContainerPod FetchPodOwnerInfo InfoForPID w_c1 ∧
  namespaces_keyed (db w_c1) ∧ containerIDs_keyed (db w_c1) ∧
  cache_within_namespaces (db w_c1).
Proof.
  assert (Hreach : reachable GetContainerPod FetchPodOwnerInfo InfoForPID w_c1).
  { apply (reachable_handle GetContainerPod FetchPodOwnerInfo InfoForPID
             (EvAddProcess 100%N) w0).
    apply reachable_create. }
  split; [exact Hreach|].
  apply (reachable_consistent GetContainerPod FetchPodOwnerInfo InfoForPID
           w_c1 Hreach).
Defined.


(** ** A container that is not forgotten *)

(** C2, as it is worded for every container.Info of the container, fails:
    [w_two_namespaces] is reached from [CreateDatabase], and after
    [OnDeletion] of c1 the namespace index still maps the namespace 7 to
    the container.Info of c1 that the process 100 was added with, and the
    pod cache still maps 7 to the pod 1, which [OwnerPodInfo] answers. *)
Lemma C2_container_not_forgotten :
  reachable GetContainerPod FetchPodOwnerInfo InfoForPID w_two_namespaces ∧
  ¬ forgotten "c1" (db w_two_namespaces)
      (db (exec (OnDeletion ["c1"]) w_two_namespaces)) ∧
  namespaces (db (exec (OnDeletion ["c1"]) w_two_namespaces)) !! 7%N
    = Some (container.mkInfo "c1" 7) ∧
  fetchedPodsCache (db (exec (OnDeletion ["c1"]) w_two_namespaces)) !! 7%N
    = Some 1%positive ∧
  result (Owner_of 7%N) (exec (OnDeletion ["c1"]) w_two_namespaces)
    = (Some 1%positive, true).
Proof.
  split_and!.
  - unfold w_two_namespaces. do 3 apply reachable_handle.
    apply reachable_create.
  - intros (_ & Hns & _).
    apply (Hns 7%N (container.mkInfo "c1" 7)); reflexivity.
  - reflexivity.
  - reflexivity.
  - reflexivity.
Qed.
